(** * The BNS command of the Diode client (cmd/diode/bns.go)

    A shallow embedding of the name-service command: the name validator
    [isValidBNS], the four handlers [handleRegister], [handleUnregister],
    [handleTransfer] and [handleLookup], the dispatcher [bnsHandler] and
    the confirmation loop [wait], together with the properties the
    specification states about them.

    The handlers talk to an RPC client, a contract encoder and the
    console.  The collaborators are gathered in a record [Env]; an access
    to the network is a transition of the ledger's state.  A run writes
    down, in program order, its accesses to the network and the three
    local steps the specification orders against them: the validation of
    a name, the decoding of an address and the construction of a
    transaction. *)

From Stdlib Require Import Bool List Arith NArith Lia.
From Stdlib.Strings Require Import Ascii String Byte.
Import ListNotations.

Local Open Scope string_scope.
Local Open Scope list_scope.

(** ** Go strings

    A Go [string] is a sequence of bytes; [len] counts bytes.  It is
    modelled by [string], whose characters are the 256 bytes. *)

Module GoStrings.

Definition byteVal (c : ascii) : N := N_of_ascii c.

(** [lo <= c && c <= hi] on bytes. *)
Definition inRange (lo hi c : ascii) : bool :=
  (byteVal lo <=? byteVal c)%N && (byteVal c <=? byteVal hi)%N.

Fixpoint forallb (p : ascii -> bool) (s : string) : bool :=
  match s with
  | EmptyString => true
  | String c t => p c && forallb p t
  end.

Fixpoint map (f : ascii -> ascii) (s : string) : string :=
  match s with
  | EmptyString => EmptyString
  | String c t => String (f c) (map f t)
  end.

Fixpoint count (p : ascii -> bool) (s : string) : nat :=
  match s with
  | EmptyString => 0
  | String c t => (if p c then 1 else 0) + count p t
  end.

(** [c < utf8.RuneSelf] *)
Definition isASCII (c : ascii) : bool := (byteVal c <? 128)%N.

(** ['A' <= c && c <= 'Z'] *)
Definition isUpper (c : ascii) : bool := inRange "A" "Z" c.

(** [c += 'a' - 'A'] for an upper-case byte. *)
Definition lowerByte (c : ascii) : ascii :=
  if isUpper c then ascii_of_N (byteVal c + 32) else c.

(** [strings.ToLower].  The library lower-cases a string made of ASCII
    bytes only byte by byte; any other string goes through
    [strings.Map(unicode.ToLower, s)], whose Unicode tables are not part
    of the program: that path is the parameter [mapLower]. *)
Definition ToLower (mapLower : string -> string) (s : string) : string :=
  if forallb isASCII s then map lowerByte s else mapLower s.

(** [strings.Split(s, sep)] for a separator of one byte: the pieces
    between the occurrences of [sep], one more than there are
    occurrences. *)
Fixpoint Split (s : string) (sep : ascii) : list string :=
  match s with
  | EmptyString => [EmptyString]
  | String c t =>
      if Ascii.eqb c sep then EmptyString :: Split t sep
      else match Split t sep with
           | piece :: rest => String c piece :: rest
           | [] => [String c EmptyString]
           end
  end.

End GoStrings.

(** ** Regular expressions

    The part of Go's [regexp] syntax the program uses, matched with
    derivatives.  A pattern written between [^] and [$] matches a text
    when its body matches the whole text. *)

Module Regexp.

Inductive syntax : Type :=
| NoMatch
| EmptyMatch
| CharClass (ranges : list (ascii * ascii))
| Concat (r1 r2 : syntax)
| Alternate (r1 r2 : syntax)
| Star (r : syntax)
| Plus (r : syntax).

Definition inClass (ranges : list (ascii * ascii)) (c : ascii) : bool :=
  existsb (fun r => GoStrings.inRange (fst r) (snd r) c) ranges.

Fixpoint nullable (r : syntax) : bool :=
  match r with
  | NoMatch => false
  | EmptyMatch => true
  | CharClass _ => false
  | Concat r1 r2 => nullable r1 && nullable r2
  | Alternate r1 r2 => nullable r1 || nullable r2
  | Star _ => true
  | Plus r => nullable r
  end.

Fixpoint deriv (c : ascii) (r : syntax) : syntax :=
  match r with
  | NoMatch => NoMatch
  | EmptyMatch => NoMatch
  | CharClass ranges => if inClass ranges c then EmptyMatch else NoMatch
  | Concat r1 r2 =>
      if nullable r1
      then Alternate (Concat (deriv c r1) r2) (deriv c r2)
      else Concat (deriv c r1) r2
  | Alternate r1 r2 => Alternate (deriv c r1) (deriv c r2)
  | Star r => Concat (deriv c r) (Star r)
  | Plus r => Concat (deriv c r) (Star r)
  end.

Fixpoint matches (r : syntax) (text : string) : bool :=
  match text with
  | EmptyString => nullable r
  | String c t => matches (deriv c r) t
  end.

(** A compiled pattern [^body$]. *)
Record Regexp : Type := MustCompile { body : syntax }.

(** [re.Match(b)] *)
Definition Match (re : Regexp) (b : string) : bool := matches (body re) b.

End Regexp.

(** ** The name validator *)

(** [regexp.MustCompile(`^[0-9a-z-]+$`)] *)
Definition bnsPattern : Regexp.Regexp :=
  Regexp.MustCompile
    (Regexp.Plus (Regexp.CharClass [("0", "9"); ("a", "z"); ("-", "-")]%char)).

Definition isValidBNS (name : string) : bool :=
  if (String.length name <? 7)%nat || (32 <? String.length name)%nat then false
  else Regexp.Match bnsPattern name.


(** ** Addresses, errors and console output *)

(** [util.Address], [rpc.Address]: [[20]byte], compared byte by byte. *)
Definition Address : Type := list byte.

(** [[20]byte{}] *)
Definition zeroAddress : Address := repeat x00 20.

Fixpoint Address_eqb (a b : Address) : bool :=
  match a, b with
  | [], [] => true
  | x :: a', y :: b' => Byte.eqb x y && Address_eqb a' b'
  | _, _ => false
  end.

(** An argument of a format string: a string under [%s], the [Hex()] or
    the [HexString()] rendering of an address. *)
Inductive fmtArg : Type :=
| FmtString (s : string)
| FmtHex (a : Address)
| FmtHexString (a : Address).

(** [fmt.Sprintf(format, args...)] *)
Record formatted : Type := Sprintf { format : string; args : list fmtArg }.

(** A Go [error]: made here with [fmt.Errorf], or handed back by a
    collaborator. *)
Inductive error : Type :=
| Errorf (format : string) (args : list fmtArg)
| CollaboratorError (msg : string).

Definition isNil (err : option error) : bool :=
  match err with
  | None => true
  | Some _ => false
  end.

Inductive Output : Type :=
| PrintError (msg : string) (err : option error)
| PrintLabel (label : string) (value : formatted)
| PrintInfo (msg : string).

(** ** Transactions and the accesses to the network *)

Record Transaction : Type := mkTransaction {
  txNonce : N;
  txPrice : N;
  txGas : N;
  txTo : Address;
  txValue : N;
  txData : list byte;
  txChainID : N
}.

(** [edge.NewTransaction] *)
Definition NewTransaction (nonce price gas : N) (to : Address) (value : N)
    (data : list byte) (chainID : N) : Transaction :=
  mkTransaction nonce price gas to value data chainID.

Inductive Event : Type :=
(* local steps *)
| EvValidate (name : string)
| EvDecodeAddress (text : string)
| EvNewTransaction (tx : Transaction)
| EvSleep (milliseconds : N)
(* accesses to the network *)
| EvStart
| EvGetBlockPeak
| EvGetAccountNonce (block : N) (account : Address)
| EvResolveBNS (name : string)
| EvResolveBNSOwner (name : string)
| EvSendTransaction (tx : Transaction)
| EvLastValid.

Definition isNetwork (ev : Event) : bool :=
  match ev with
  | EvValidate _ | EvDecodeAddress _ | EvNewTransaction _ | EvSleep _ => false
  | _ => true
  end.

(** The accesses to the network in a trace. *)
Definition networkAccesses (t : list Event) : list Event :=
  filter isNetwork t.

Definition isSubmission (ev : Event) : bool :=
  match ev with
  | EvSendTransaction _ => true
  | _ => false
  end.

(** The number of transactions handed to the network in a trace. *)
Definition submissions (t : list Event) : nat :=
  List.length (filter isSubmission t).

(** ** The collaborators

    Everything the command calls and that lives outside bns.go.  A
    function returning [(value, err)] in Go returns a pair here, so that
    the value is there to be used when the error is dropped.  [Ledger] is
    the state of the network as the client reaches it; it moves at every
    call and while the program sleeps. *)

Record Env : Type := {
  Ledger : Type;
  (* strings.Map(unicode.ToLower, _) *)
  mapLower : string -> string;
  (* app.Start() *)
  Start : Ledger -> option error * Ledger;
  (* methods of the nearest client *)
  GetBlockPeak : Ledger -> (N * option error) * Ledger;
  GetAccountNonce : N -> Address -> Ledger -> N * Ledger;
  ResolveBNS : string -> Ledger -> (Address * option error) * Ledger;
  ResolveBNSOwner : string -> Ledger -> (Address * option error) * Ledger;
  SendTransaction : Transaction -> Ledger -> (bool * option error) * Ledger;
  LastValid : Ledger -> N * Ledger;
  (* time.Sleep *)
  Sleep : N -> Ledger -> Ledger;
  (* client.Config.ClientAddr *)
  clientAddr : Address;
  (* contract.BNSAddr *)
  BNSAddr : Address;
  (* util.DecodeAddress *)
  DecodeAddress : string -> Address * option error;
  (* package contract *)
  BNSContract : Type;
  NewBNSContract : BNSContract * option error;
  Register : BNSContract -> string -> Address -> list byte * option error;
  Transfer : BNSContract -> string -> Address -> list byte * option error;
  Unregister : BNSContract -> string -> list byte * option error
}.

(** [config.AppConfig], the fields the command reads. *)
Record Config : Type := {
  BNSRegister : string;
  BNSUnregister : string;
  BNSTransfer : string;
  BNSLookup : string;
  ClientAddr : Address
}.

(** ** Runs

    The state a run threads: the ledger, the accesses made so far and
    what was printed so far, both oldest first.  A run either returns or,
    when the fuel of a height wait is used up, stops where it is. *)

Record World (L : Type) : Type := mkWorld {
  net : L;
  trace : list Event;
  out : list Output
}.

Inductive Run (L A : Type) : Type :=
| Ret (a : A) (w : World L)
| Hang (w : World L).

Arguments mkWorld {L} net trace out.
Arguments net {L} w.
Arguments trace {L} w.
Arguments out {L} w.
Arguments Ret {L A} a w.
Arguments Hang {L A} w.

Definition M (L A : Type) : Type := World L -> Run L A.

Definition ret {L A : Type} (a : A) : M L A := fun w => Ret a w.

Definition bind {L A B : Type} (m : M L A) (k : A -> M L B) : M L B :=
  fun w =>
    match m w with
    | Ret a w' => k a w'
    | Hang w' => Hang w'
    end.

Declare Scope run_scope.
Delimit Scope run_scope with run.
Notation "x <- m ;; k" := (bind m (fun x => k))
  (at level 61, m at next level, right associativity) : run_scope.
Notation "m ;; k" := (bind m (fun _ => k))
  (at level 61, right associativity) : run_scope.
Local Open Scope run_scope.

(** An access to the network: the ledger answers and moves, the access
    is recorded. *)
Definition call {L A : Type} (ev : Event) (f : L -> A * L) : M L A :=
  fun w =>
    Ret (fst (f (net w)))
        (mkWorld (snd (f (net w))) (trace w ++ [ev]) (out w)).

(** A local step: recorded, the ledger is left alone. *)
Definition step {L A : Type} (ev : Event) (a : A) : M L A :=
  call ev (fun l => (a, l)).

Definition print {L : Type} (o : Output) : M L unit :=
  fun w => Ret tt (mkWorld (net w) (trace w) (out w ++ [o])).

Definition printError {L : Type} (msg : string) (err : option error) : M L unit :=
  print (PrintError msg err).

Definition printLabel {L : Type} (label : string) (value : formatted) : M L unit :=
  print (PrintLabel label value).

Definition printInfo {L : Type} (msg : string) : M L unit :=
  print (PrintInfo msg).

(** ** The command *)

Section Command.

Variable E : Env.

Definition Prog (A : Type) : Type := M (Ledger E) A.

(** [strings.ToLower] with the library's Unicode path. *)
Definition ToLower (s : string) : string :=
  GoStrings.ToLower (mapLower E) s.

(** [pair[i]]; the handlers index a split result only below its
    length. *)
Definition index (pair : list string) (i : nat) : string :=
  nth i pair EmptyString.

Definition nameSyntaxError : error :=
  Errorf "BNS name should be more than 7 or less than 32 characters (0-9A-Za-z-)" [].

(** The client's methods as accesses. *)
Definition getBlockPeak : Prog (N * option error) :=
  call EvGetBlockPeak (GetBlockPeak E).

Definition getAccountNonce (block : N) (account : Address) : Prog N :=
  call (EvGetAccountNonce block account) (GetAccountNonce E block account).

Definition resolveBNS (name : string) : Prog (Address * option error) :=
  call (EvResolveBNS name) (ResolveBNS E name).

Definition resolveBNSOwner (name : string) : Prog (Address * option error) :=
  call (EvResolveBNSOwner name) (ResolveBNSOwner E name).

Definition sendTransaction (tx : Transaction) : Prog (bool * option error) :=
  call (EvSendTransaction tx) (SendTransaction E tx).

Definition lastValid : Prog N :=
  call EvLastValid (LastValid E).

Definition sleep (milliseconds : N) : Prog unit :=
  call (EvSleep milliseconds) (fun l => (tt, Sleep E milliseconds l)).

(** The local steps. *)
Definition validate (name : string) : Prog bool :=
  step (EvValidate name) (isValidBNS name).

Definition decodeAddress (text : string) : Prog (Address * option error) :=
  step (EvDecodeAddress text) (DecodeAddress E text).

Definition newTransaction (nonce price gas : N) (to : Address) (value : N)
    (data : list byte) (chainID : N) : Prog Transaction :=
  let tx := NewTransaction nonce price gas to value data chainID in
  step (EvNewTransaction tx) tx.

Definition appStart : Prog (option error) :=
  call EvStart (Start E).

(** The inner loop of [wait]: poll the height until it differs from
    [bn], sleeping 100 ms between two polls.  The loop has no bound of
    its own; [fuel] bounds the polls of the model. *)
Fixpoint awaitHeight (fuel : nat) (bn : N) : Prog unit :=
  match fuel with
  | O => fun w => Hang w
  | S fuel' =>
      bn2 <- lastValid ;;
      if negb (bn =? bn2)%N then ret tt
      else sleep 100 ;; awaitHeight fuel' bn
  end.

(** The outer loop of [wait] with [budget] iterations left. *)
Fixpoint waitLoop (fuel : nat) (condition : Prog bool) (budget : nat)
    : Prog unit :=
  match budget with
  | O =>
      printError "Giving up to wait for transaction"
                 (Some (Errorf "timeout after 10 minutes" []))
  | S budget' =>
      bn <- lastValid ;;
      ok <- condition ;;
      if ok then printInfo "Transaction executed successfully!"
      else awaitHeight fuel bn ;; waitLoop fuel condition budget'
  end.

Definition waitBudget : nat := N.to_nat 6000.

Definition wait (fuel : nat) (condition : Prog bool) : Prog unit :=
  printInfo "Waiting for block to be confirmed - expect to wait 5 minutes" ;;
  waitLoop fuel condition waitBudget.

Variable cfg : Config.

Definition handleLookup : Prog (bool * option error) :=
  let lookupName := ToLower (BNSLookup cfg) in
  if (String.length lookupName =? 0)%nat then ret (false, None)
  else
    r <- resolveBNS lookupName ;;
    match snd r with
    | Some err => printError "Lookup error: " (Some err) ;; ret (true, Some err)
    | None =>
        printLabel "Lookup result: "
          (Sprintf "%s=0x%s" [FmtString lookupName; FmtHex (fst r)]) ;;
        o <- resolveBNSOwner lookupName ;;
        match snd o with
        | Some err =>
            printError "Couldn't lookup owner: " (Some err) ;;
            ret (true, Some err)
        | None =>
            printLabel "Domain owner: " (Sprintf "0x%s" [FmtHex (fst o)]) ;;
            ret (true, None)
        end
    end.

Definition handleRegister (fuel : nat) : Prog (bool * option error) :=
  if (String.length (BNSRegister cfg) =? 0)%nat then ret (false, None)
  else
    let registerPair := GoStrings.Split (BNSRegister cfg) "=" in
    match snd (NewBNSContract E) with
    | Some err =>
        printError "Cannot create BNS contract instance: " (Some err) ;;
        ret (true, Some err)
    | None =>
        let bnsContract := fst (NewBNSContract E) in
        let bnsName := ToLower (index registerPair 0) in
        valid <- validate bnsName ;;
        if negb valid then
          printError "Argument Error: " (Some nameSyntaxError) ;;
          ret (true, None)
        else
          nonce <- getAccountNonce 0 (ClientAddr cfg) ;;
          decoded <-
            (if (1 <? List.length registerPair)%nat
             then decodeAddress (index registerPair 1)
             else ret (ClientAddr cfg, None)) ;;
          match snd decoded with
          | Some err =>
              printError "Invalid diode address" (Some err) ;;
              ret (true, Some err)
          | None =>
              let bnsAddr := fst decoded in
              r <- resolveBNS bnsName ;;
              if isNil (snd r) && Address_eqb (fst r) bnsAddr then
                printError "BNS name is already mapped to this address" None ;;
                ret (true, None)
              else
                let registerData :=
                  fst (Register E bnsContract bnsName bnsAddr) in
                ntx <-
                  newTransaction nonce 0 10000000 (BNSAddr E) 0 registerData 0 ;;
                s <- sendTransaction ntx ;;
                match snd s with
                | Some err =>
                    printError "Cannot register blockchain name service: "
                               (Some err) ;;
                    ret (true, Some err)
                | None =>
                    if negb (fst s) then
                      printError "Cannot register blockchain name service: "
                                 (Some (Errorf "server return false" [])) ;;
                      ret (true, None)
                    else
                      printLabel "Register bns: "
                        (Sprintf "%s=%s"
                           [FmtString bnsName; FmtHexString bnsAddr]) ;;
                      wait fuel
                        (c <- resolveBNS bnsName ;;
                         ret (isNil (snd c) && Address_eqb (fst c) bnsAddr)) ;;
                      ret (true, None)
                end
          end
    end.

Definition handleTransfer (fuel : nat) : Prog (bool * option error) :=
  let transferPair := GoStrings.Split (BNSTransfer cfg) "=" in
  if negb (List.length transferPair =? 2)%nat then ret (false, None)
  else
    match snd (NewBNSContract E) with
    | Some err =>
        printError "Cannot create BNS contract instance: " (Some err) ;;
        ret (true, Some err)
    | None =>
        let bnsContract := fst (NewBNSContract E) in
        let bnsName := ToLower (index transferPair 0) in
        valid <- validate bnsName ;;
        if negb valid then
          printError "Argument Error: " (Some nameSyntaxError) ;;
          ret (true, None)
        else
          nonce <- getAccountNonce 0 (ClientAddr cfg) ;;
          decoded <- decodeAddress (index transferPair 1) ;;
          match snd decoded with
          | Some err =>
              printError "Invalid destination address" (Some err) ;;
              ret (true, Some err)
          | None =>
              let newOwner := fst decoded in
              o <- resolveBNSOwner bnsName ;;
              let owner := fst o in
              if isNil (snd o) && Address_eqb owner newOwner then
                let err :=
                  Errorf "domain is already owned by %v" [FmtHexString owner] in
                printError "BNS name already transferred" (Some err) ;;
                ret (true, Some err)
              else if isNil (snd o) && negb (Address_eqb owner (clientAddr E)) then
                let err :=
                  Errorf "bns domain is owned by %v" [FmtHexString owner] in
                printError "BNS name can't be transfered" (Some err) ;;
                ret (true, Some err)
              else
                let registerData :=
                  fst (Transfer E bnsContract bnsName newOwner) in
                ntx <-
                  newTransaction nonce 0 10000000 (BNSAddr E) 0 registerData 0 ;;
                s <- sendTransaction ntx ;;
                let err :=
                  if isNil (snd s) && negb (fst s)
                  then Some (Errorf "server returned false" [])
                  else snd s in
                match err with
                | Some e =>
                    printError "Cannot transfer blockchain name: " (Some e) ;;
                    ret (true, Some e)
                | None =>
                    printLabel "Transferring bns: "
                      (Sprintf "%s=%s"
                         [FmtString bnsName; FmtHexString newOwner]) ;;
                    wait fuel
                      (c <- resolveBNSOwner bnsName ;;
                       ret (isNil (snd c) && Address_eqb (fst c) newOwner)) ;;
                    ret (true, None)
                end
          end
    end.

Definition handleUnregister (fuel : nat) : Prog (bool * option error) :=
  if (String.length (BNSUnregister cfg) =? 0)%nat then ret (false, None)
  else
    match snd (NewBNSContract E) with
    | Some err =>
        printError "Cannot create BNS contract instance: " (Some err) ;;
        ret (true, Some err)
    | None =>
        let bnsContract := fst (NewBNSContract E) in
        let bnsName := ToLower (BNSUnregister cfg) in
        valid <- validate bnsName ;;
        if negb valid then
          printError "Argument Error: " (Some nameSyntaxError) ;;
          ret (true, None)
        else
          nonce <- getAccountNonce 0 (ClientAddr cfg) ;;
          o <- resolveBNSOwner bnsName ;;
          let owner := fst o in
          if Address_eqb owner zeroAddress then
            ret (true, Some (Errorf "BNS name is already free" []))
          else if negb (Address_eqb owner (clientAddr E)) then
            let err := Errorf "BNS owned by %v" [FmtHexString owner] in
            printError "BNS name can't be freed" (Some err) ;;
            ret (true, Some err)
          else
            let registerData := fst (Unregister E bnsContract bnsName) in
            ntx <-
              newTransaction nonce 0 10000000 (BNSAddr E) 0 registerData 0 ;;
            s <- sendTransaction ntx ;;
            let err :=
              if isNil (snd s) && negb (fst s)
              then Some (Errorf "server returned false" [])
              else snd s in
            match err with
            | Some e =>
                printError "Cannot unregister blockchain name: " (Some e) ;;
                ret (true, Some e)
            | None =>
                printLabel "Unregistering bns: "
                  (Sprintf "%s" [FmtString bnsName]) ;;
                wait fuel
                  (c <- resolveBNSOwner bnsName ;;
                   ret (Address_eqb (fst c) zeroAddress)) ;;
                ret (true, None)
            end
    end.

Definition usageError : error :=
  Errorf "provide -register <name>=<address> or -lookup <name> or -unregister <name> or -transfer <name>=<new_owner> argument" [].

(** What follows a handler in [bnsHandler]:
    [if done, err = handle(); done || err != nil { return }]. *)
Definition orElse (handler : Prog (bool * option error))
    (next : Prog (option error)) : Prog (option error) :=
  r <- handler ;;
  if fst r || negb (isNil (snd r)) then ret (snd r) else next.

(** The second half of [bnsHandler]: the handlers in turn, then the
    usage error. *)
Definition dispatch (fuel : nat) : Prog (option error) :=
  orElse (handleRegister fuel)
    (orElse (handleUnregister fuel)
       (orElse (handleTransfer fuel)
          (orElse handleLookup
             (printError "Argument Error: " (Some usageError) ;;
              ret None)))).

Definition bnsHandler (fuel : nat) : Prog (option error) :=
  err <- appStart ;;
  match err with
  | Some e => ret (Some e)
  | None =>
      peak <- getBlockPeak ;;
      if (fst peak =? 0)%N then
        printError "Cannot find block peak: " (Some (Errorf "not found" [])) ;;
        ret None
      else dispatch fuel
  end.

End Command.

(** What a run leaves behind, whether it returned or not. *)
Definition worldOf {L A : Type} (r : Run L A) : World L :=
  match r with
  | Ret _ w => w
  | Hang w => w
  end.

(** ** The dispatch, in the specification's words and in the program's *)

Inductive Operation : Type := OpRegister | OpUnregister | OpTransfer | OpLookup.

Definition supplied (s : string) : bool := negb (String.length s =? 0)%nat.

(** The specification: the first input supplied, in the order register,
    unregister, transfer, lookup. *)
Definition firstSupplied (cfg : Config) : option Operation :=
  if supplied (BNSRegister cfg) then Some OpRegister
  else if supplied (BNSUnregister cfg) then Some OpUnregister
  else if supplied (BNSTransfer cfg) then Some OpTransfer
  else if supplied (BNSLookup cfg) then Some OpLookup
  else None.

(** The program: the first handler that takes the request for itself.
    Each test is the one its handler starts with. *)
Definition firstApplicable (E : Env) (cfg : Config) : option Operation :=
  if negb (String.length (BNSRegister cfg) =? 0)%nat then Some OpRegister
  else if negb (String.length (BNSUnregister cfg) =? 0)%nat then Some OpUnregister
  else if (List.length (GoStrings.Split (BNSTransfer cfg) "=") =? 2)%nat
       then Some OpTransfer
  else if negb (String.length (ToLower E (BNSLookup cfg)) =? 0)%nat
       then Some OpLookup
  else None.

(** The handler of an operation. *)
Definition handlerOf (E : Env) (cfg : Config) (fuel : nat) (op : Operation)
    : Prog E (bool * option error) :=
  match op with
  | OpRegister => handleRegister E cfg fuel
  | OpUnregister => handleUnregister E cfg fuel
  | OpTransfer => handleTransfer E cfg fuel
  | OpLookup => handleLookup E cfg
  end.

(** A handler that, whenever it returns, returns [done = true]. *)
Definition takesRequest {L : Type} (m : M L (bool * option error)) : Prop :=
  forall w,
    match m w with
    | Ret r _ => fst r = true
    | Hang _ => True
    end.

(** The request that carries the input of [op] alone. *)
Definition only (op : Operation) (cfg : Config) : Config :=
  {| BNSRegister := match op with OpRegister => BNSRegister cfg | _ => "" end;
     BNSUnregister := match op with OpUnregister => BNSUnregister cfg | _ => "" end;
     BNSTransfer := match op with OpTransfer => BNSTransfer cfg | _ => "" end;
     BNSLookup := match op with OpLookup => BNSLookup cfg | _ => "" end;
     ClientAddr := ClientAddr cfg |}.

(** ** The order of a mutation's steps

    [ordered phase t] reads a trace from a phase on: the name is
    validated (0), the nonce is read (1), an address may be decoded (2),
    the name is resolved (2 or 3), the transaction is constructed (4) and
    submitted (5); the rest (6) is the confirmation polling. *)
Fixpoint ordered (phase : nat) (t : list Event) : bool :=
  match t with
  | [] => true
  | ev :: t' =>
      match ev, phase with
      | EvValidate _, 0 => ordered 1 t'
      | EvGetAccountNonce _ _, 1 => ordered 2 t'
      | EvDecodeAddress _, 2 => ordered 3 t'
      | EvResolveBNS _, 2 | EvResolveBNS _, 3 => ordered 4 t'
      | EvResolveBNSOwner _, 2 | EvResolveBNSOwner _, 3 => ordered 4 t'
      | EvNewTransaction _, 4 => ordered 5 t'
      | EvSendTransaction _, 5 => ordered 6 t'
      | EvLastValid, 6 | EvSleep _, 6 => ordered 6 t'
      | EvResolveBNS _, 6 | EvResolveBNSOwner _, 6 => ordered 6 t'
      | _, _ => false
      end
  end.

(** The events of the confirmation polling. *)
Definition isPoll (ev : Event) : bool :=
  match ev with
  | EvLastValid | EvSleep _ | EvResolveBNS _ | EvResolveBNSOwner _ => true
  | _ => false
  end.

(** A program that only adds events of the confirmation polling. *)
Definition polls (E : Env) {A : Type} (m : Prog E A) : Prop :=
  forall w, exists t,
    trace (worldOf (m w)) = trace w ++ t /\ forallb isPoll t = true.

(** A run that added to the trace of [w] steps in the order of a
    mutation. *)
Definition stepsOrdered {L A : Type} (w : World L) (r : Run L A) : Prop :=
  exists t, trace (worldOf r) = trace w ++ t /\ ordered 0 t = true.

(** A run that returned [done = true] and the error [err] after having
    added exactly [steps] to the trace of [w]. *)
Definition rejectedAfter {L : Type} (steps : list Event) (err : option error)
    (w : World L) (r : Run L (bool * option error)) : Prop :=
  exists w', r = Ret (true, err) w' /\ trace w' = trace w ++ steps.

(** ** Requests that differ in one input *)

Definition setRegister (s : string) (cfg : Config) : Config :=
  {| BNSRegister := s; BNSUnregister := BNSUnregister cfg;
     BNSTransfer := BNSTransfer cfg; BNSLookup := BNSLookup cfg;
     ClientAddr := ClientAddr cfg |}.




(** The number of [=] in a string. *)
Definition separators (s : string) : nat :=
  GoStrings.count (fun c => Ascii.eqb c "=") s.


(** What the properties of lower-casing rely on for the strings that
    are not made of ASCII bytes only, which the library lower-cases with
    its Unicode tables: lower-casing the result again changes nothing,
    the result is not empty, and no [=] appears in it that was not
    there. *)
Definition unicodeLowerCase (E : Env) : Prop :=
  forall s,
    GoStrings.forallb GoStrings.isASCII s = false ->
    ToLower E (mapLower E s) = mapLower E s /\
    mapLower E s <> "" /\
    (separators s = 0 -> separators (mapLower E s) = 0).

(** ** What a confirmation wait relies on *)

(** The ledger after [n] rounds of the height wait: a poll of the
    height, then a sleep of 100 ms. *)
Fixpoint polled (E : Env) (n : nat) (l : Ledger E) : Ledger E :=
  match n with
  | O => l
  | S n' => polled E n' (Sleep E 100 (snd (LastValid E l)))
  end.

(** A property of the ledger that polling and sleeping keep. *)
Definition stable (E : Env) (Inv : Ledger E -> Prop) : Prop :=
  forall l, Inv l -> Inv (snd (LastValid E l)) /\ Inv (Sleep E 100 l).

(** The height does not stay at any value for ever: from every state of
    the ledger and for every height [bn], some poll of a height wait
    reads a height other than [bn]. *)
Definition heightMoves (E : Env) (Inv : Ledger E -> Prop) : Prop :=
  forall (l : Ledger E) (bn : N),
    Inv l -> exists n, fst (LastValid E (polled E n l)) <> bn.

(** A predicate that never becomes true: whenever it is evaluated it
    answers [false]. *)
Definition neverTrue (E : Env) (Inv : Ledger E -> Prop)
    (condition : Prog E bool) : Prop :=
  forall w, Inv (net w) -> exists w', condition w = Ret false w' /\ Inv (net w').

(** ** What the handlers report *)

(** The error [handleTransfer] refuses a name of another owner with. *)
Definition ownedByError (owner : Address) : error :=
  Errorf "bns domain is owned by %v" [FmtHexString owner].

(** The error [handleTransfer] answers with when the new owner owns the
    name already. *)
Definition alreadyOwnedError (owner : Address) : error :=
  Errorf "domain is already owned by %v" [FmtHexString owner].

(** What [handleTransfer] prints and returns for a name whose owner is
    not the caller. *)
Definition transferRefusal (owner newOwner : Address) : string * error :=
  if Address_eqb owner newOwner
  then ("BNS name already transferred", alreadyOwnedError owner)
  else ("BNS name can't be transfered", ownedByError owner).

Definition alreadyFreeError : error := Errorf "BNS name is already free" [].

Definition alreadyMapped : Output :=
  PrintError "BNS name is already mapped to this address" None.

Definition usageReport : Output := PrintError "Argument Error: " (Some usageError).

Definition timedOut : Output :=
  PrintError "Giving up to wait for transaction"
             (Some (Errorf "timeout after 10 minutes" [])).

(** ** A simulated ledger

    A small instance of the collaborators, used to run the command on
    concrete requests: a table of name records, a height that moves at
    every sleep when [advancing] holds and never otherwise, and a node
    that takes every transaction into its pool and never mines it. *)

Module Sim.

Definition hexDigit (c : ascii) : option N :=
  if GoStrings.inRange "0" "9" c then Some (GoStrings.byteVal c - 48)%N
  else if GoStrings.inRange "a" "f" c then Some (GoStrings.byteVal c - 87)%N
  else if GoStrings.inRange "A" "F" c then Some (GoStrings.byteVal c - 55)%N
  else None.

Fixpoint hexBytes (s : string) : option (list byte) :=
  match s with
  | EmptyString => Some []
  | String a (String b t) =>
      match hexDigit a, hexDigit b, hexBytes t with
      | Some x, Some y, Some rest =>
          option_map (fun v => v :: rest) (Byte.of_N (16 * x + y))
      | _, _, _ => None
      end
  | String _ EmptyString => None
  end.

Definition decodeAddress (s : string) : Address * option error :=
  let digits :=
    match s with
    | String "0" (String "x" t) => t
    | _ => s
    end in
  match hexBytes digits with
  | Some bytes =>
      if (List.length bytes =? 20)%nat then (bytes, None)
      else (zeroAddress, Some (CollaboratorError "wrong address length"))
  | None => (zeroAddress, Some (CollaboratorError "not a hex string"))
  end.

Record NameRecord : Type := {
  recordName : string;
  boundAddress : Address;
  recordOwner : Address
}.

Record SimLedger : Type := {
  height : N;
  records : list NameRecord
}.

Fixpoint find (name : string) (rs : list NameRecord) : option NameRecord :=
  match rs with
  | [] => None
  | r :: rs' => if String.eqb (recordName r) name then Some r else find name rs'
  end.

Definition resolve (field : NameRecord -> Address) (name : string)
    (l : SimLedger) : (Address * option error) * SimLedger :=
  match find name (records l) with
  | Some r => ((field r, None), l)
  | None => ((zeroAddress, Some (CollaboratorError "not found")), l)
  end.

Definition env (caller : Address) (advancing : bool) : Env :=
  {| Ledger := SimLedger;
     mapLower := fun s => s;
     Start := fun l => (None, l);
     GetBlockPeak := fun l => ((height l, None), l);
     GetAccountNonce := fun _ _ l => (1%N, l);
     ResolveBNS := resolve boundAddress;
     ResolveBNSOwner := resolve recordOwner;
     SendTransaction := fun _ l => ((true, None), l);
     LastValid := fun l => (height l, l);
     Sleep := fun _ l =>
       if advancing
       then {| height := height l + 1; records := records l |}
       else l;
     clientAddr := caller;
     BNSAddr := repeat xaf 20;
     DecodeAddress := decodeAddress;
     BNSContract := unit;
     NewBNSContract := (tt, None);
     Register := fun _ name addr => (list_byte_of_string name ++ addr, None);
     Transfer := fun _ name addr => (list_byte_of_string name ++ addr, None);
     Unregister := fun _ name => (list_byte_of_string name, None) |}.

Definition addr1 : Address := repeat x11 20.
Definition addr2 : Address := repeat x22 20.
Definition addr3 : Address := repeat x33 20.

Definition text1 : string := "0x1111111111111111111111111111111111111111".
Definition text2 : string := "0x2222222222222222222222222222222222222222".
Definition text3 : string := "0x3333333333333333333333333333333333333333".

(** [hello-world] is bound to 0x22..22 and owned by 0x11..11;
    [free-name] was given back. *)
Definition ledger0 : SimLedger :=
  {| height := 100;
     records :=
       [ {| recordName := "hello-world";
            boundAddress := addr2; recordOwner := addr1 |};
         {| recordName := "free-name";
            boundAddress := zeroAddress; recordOwner := zeroAddress |} ] |}.

Definition world0 : World SimLedger := mkWorld ledger0 [] [].

(** The records are those of [ledger0], whatever the height. *)
Definition sameRecords (l : SimLedger) : Prop := records l = records ledger0.

(** The predicate [handleRegister] waits on after a request to bind
    [hello-world] to 0x33..33. *)
Definition awaitsBinding (caller : Address) (advancing : bool)
    : Prog (env caller advancing) bool :=
  c <- resolveBNS (env caller advancing) "hello-world" ;;
  ret (isNil (snd c) && Address_eqb (fst c) addr3).

Definition request (register unregister transfer lookup : string)
    (caller : Address) : Config :=
  {| BNSRegister := register; BNSUnregister := unregister;
     BNSTransfer := transfer; BNSLookup := lookup; ClientAddr := caller |}.

(** Requests on [ledger0]. *)

(** Bind [hello-world] to the address it is bound to. *)
Definition registerBound : Config :=
  request ("hello-world=" ++ text2) "" "" "" addr1.

(** Bind [hello-world] to something that is not an address. *)
Definition registerBadAddress : Config :=
  request "hello-world=xyz" "" "" "" addr1.

Definition unregisterFree : Config :=
  request "" "free-name" "" "" addr1.

(** 0x22..22, who does not own [hello-world], hands it to 0x33..33. *)
Definition transferByStranger : Config :=
  request "" "" ("hello-world=" ++ text3) "" addr2.

(** 0x22..22, who does not own [hello-world], hands it to its owner. *)
Definition transferToOwner : Config :=
  request "" "" ("hello-world=" ++ text1) "" addr2.

Definition noRequest : Config := request "" "" "" "" addr1.

(** A transfer input without [=], and a lookup. *)
Definition bareTransferAndLookup : Config :=
  request "" "" "abcdefg" "hello-world" addr1.

End Sim.

(** ** The name rule, in the specification's words *)

(** A digit, a lowercase ascii letter or a hyphen. *)
Definition bnsChar (c : ascii) : Prop :=
  (48 <= GoStrings.byteVal c <= 57)%N \/
  (97 <= GoStrings.byteVal c <= 122)%N \/
  c = "-"%char.

Definition everyChar (P : ascii -> Prop) (s : string) : Prop :=
  forall c, In c (list_ascii_of_string s) -> P c.

(** ** The shape of a mutation's run *)

(** A run that returned without having submitted anything. *)
Definition returnedUnsubmitted {L A : Type} (w : World L) (r : Run L A) : Prop :=
  exists a w' t,
    r = Ret a w' /\ trace w' = trace w ++ t /\ submissions t = 0.

(** A run that submitted once: after steps without a submission it
    constructed a transaction and submitted that very transaction, and
    has only polled since.  The transaction carries the nonce the call
    read from the ledger it started on, a price of 0, 10000000 of gas,
    the BNS contract as its destination, no value and the chain id 0. *)
Definition submittedOnce (E : Env) (cfg : Config) {A : Type}
    (w : World (Ledger E)) (r : Run (Ledger E) A) : Prop :=
  exists tx pre post,
    trace (worldOf r)
    = trace w ++ pre ++ EvNewTransaction tx :: EvSendTransaction tx :: post /\
    submissions pre = 0 /\
    forallb isPoll post = true /\
    tx = NewTransaction (fst (GetAccountNonce E 0 (ClientAddr cfg) (net w)))
           0 10000000 (BNSAddr E) 0 (txData tx) 0.

(** Every run of a mutation has one of the two shapes. *)
Definition mutationShape (E : Env) (cfg : Config) {A : Type}
    (w : World (Ledger E)) (r : Run (Ledger E) A) : Prop :=
  returnedUnsubmitted w r \/ submittedOnce E cfg w r.

(** ** Evaluations of a wait's predicate *)

Definition isResolution (ev : Event) : bool :=
  match ev with
  | EvResolveBNS _ | EvResolveBNSOwner _ => true
  | _ => false
  end.

(** The number of name resolutions in a trace. *)
Definition resolutions (t : list Event) : nat :=
  List.length (filter isResolution t).

Definition confirmed : Output := PrintInfo "Transaction executed successfully!".

Definition waiting : Output :=
  PrintInfo "Waiting for block to be confirmed - expect to wait 5 minutes".

(** ** More simulated nodes *)

Module SimNodes.

(** A node that refuses every transaction: [false] and no error. *)
Definition refusing (caller : Address) : Env :=
  {| Ledger := Sim.SimLedger;
     mapLower := fun s => s;
     Start := Start (Sim.env caller false);
     GetBlockPeak := GetBlockPeak (Sim.env caller false);
     GetAccountNonce := GetAccountNonce (Sim.env caller false);
     ResolveBNS := Sim.resolve Sim.boundAddress;
     ResolveBNSOwner := Sim.resolve Sim.recordOwner;
     SendTransaction := fun _ l => ((false, None), l);
     LastValid := LastValid (Sim.env caller false);
     Sleep := Sleep (Sim.env caller false);
     clientAddr := caller;
     BNSAddr := BNSAddr (Sim.env caller false);
     DecodeAddress := Sim.decodeAddress;
     BNSContract := unit;
     NewBNSContract := (tt, None);
     Register := Register (Sim.env caller false);
     Transfer := Transfer (Sim.env caller false);
     Unregister := Unregister (Sim.env caller false) |}.

(** A node that mines at once: a transaction it takes puts the record
    [effect] in front of the table. *)
Definition mining (caller : Address) (effect : Sim.NameRecord) : Env :=
  {| Ledger := Sim.SimLedger;
     mapLower := fun s => s;
     Start := Start (Sim.env caller false);
     GetBlockPeak := GetBlockPeak (Sim.env caller false);
     GetAccountNonce := GetAccountNonce (Sim.env caller false);
     ResolveBNS := Sim.resolve Sim.boundAddress;
     ResolveBNSOwner := Sim.resolve Sim.recordOwner;
     SendTransaction := fun _ l =>
       ((true, None),
        {| Sim.height := Sim.height l;
           Sim.records := effect :: Sim.records l |});
     LastValid := LastValid (Sim.env caller false);
     Sleep := Sleep (Sim.env caller false);
     clientAddr := caller;
     BNSAddr := BNSAddr (Sim.env caller false);
     DecodeAddress := Sim.decodeAddress;
     BNSContract := unit;
     NewBNSContract := (tt, None);
     Register := Register (Sim.env caller false);
     Transfer := Transfer (Sim.env caller false);
     Unregister := Unregister (Sim.env caller false) |}.

(** 0x11..11 binds the unknown name [new-name-1] to 0x33..33. *)
Definition registerNew : Config :=
  Sim.request ("new-name-1=" ++ Sim.text3) "" "" "" Sim.addr1.

Definition newRecord : Sim.NameRecord :=
  {| Sim.recordName := "new-name-1";
     Sim.boundAddress := Sim.addr3; Sim.recordOwner := Sim.addr1 |}.

(** 0x11..11, who owns [hello-world], gives it back. *)
Definition unregisterOwn : Config :=
  Sim.request "" "hello-world" "" "" Sim.addr1.

(** 0x11..11, who owns [hello-world], hands it to 0x33..33. *)
Definition transferOwn : Config :=
  Sim.request "" "" ("hello-world=" ++ Sim.text3) "" Sim.addr1.

(** 0x11..11 hands [new-name-1], which nobody has registered, to
    0x33..33. *)
Definition transferUnknown : Config :=
  Sim.request "" "" ("new-name-1=" ++ Sim.text3) "" Sim.addr1.

Definition lookupKnown : Config :=
  Sim.request "" "" "" "Hello-World" Sim.addr1.

Definition lookupUnknown : Config :=
  Sim.request "" "" "" "nobody" Sim.addr1.

(** A node that resolves names but knows no owner. *)
Definition ownerless (caller : Address) : Env :=
  {| Ledger := Sim.SimLedger;
     mapLower := fun s => s;
     Start := Start (Sim.env caller false);
     GetBlockPeak := GetBlockPeak (Sim.env caller false);
     GetAccountNonce := GetAccountNonce (Sim.env caller false);
     ResolveBNS := Sim.resolve Sim.boundAddress;
     ResolveBNSOwner := fun _ l =>
       ((zeroAddress, Some (CollaboratorError "owner not found")), l);
     SendTransaction := SendTransaction (Sim.env caller false);
     LastValid := LastValid (Sim.env caller false);
     Sleep := Sleep (Sim.env caller false);
     clientAddr := caller;
     BNSAddr := BNSAddr (Sim.env caller false);
     DecodeAddress := Sim.decodeAddress;
     BNSContract := unit;
     NewBNSContract := (tt, None);
     Register := Register (Sim.env caller false);
     Transfer := Transfer (Sim.env caller false);
     Unregister := Unregister (Sim.env caller false) |}.

(** [ledger0] once the registration of [new-name-1] is mined. *)
Definition ledger1 : Sim.SimLedger :=
  {| Sim.height := 100; Sim.records := newRecord :: Sim.records Sim.ledger0 |}.


End SimNodes.

(** ** The name a run uses *)

(** What the properties of lower-casing rely on for one name.  For a
    name made of ASCII bytes nothing is relied on; for another name, that
    the library's Unicode path gives a string that lower-casing leaves
    as it is, that is not empty, and that holds no [=] the name did not
    hold. *)
Definition lowerCaseStable (E : Env) (name : string) : Prop :=
  GoStrings.forallb GoStrings.isASCII name = true \/
  (ToLower E (mapLower E name) = mapLower E name /\
   mapLower E name <> "" /\
   (separators name = 0 -> separators (mapLower E name) = 0)).





(** * Properties *)

(** ** Strings *)

Module GoStringsFacts.
Import GoStrings.

Lemma Split_length (s : string) (sep : ascii) :
  List.length (Split s sep) = S (count (fun c => Ascii.eqb c sep) s).
Proof.
  induction s as [| c t IH]; simpl; [reflexivity |].
  destruct (Ascii.eqb c sep); simpl.
  - now rewrite IH.
  - destruct (Split t sep) as [| piece rest] eqn:Hs; simpl in *; [discriminate |].
    exact IH.
Qed.

End GoStringsFacts.

(** ** Regular expressions *)

Module RegexpFacts.
Import Regexp.

Lemma matches_NoMatch (s : string) : matches NoMatch s = false.
Proof. induction s; simpl; auto. Qed.

Lemma matches_Concat_NoMatch (r : syntax) (s : string) :
  matches (Concat NoMatch r) s = false.
Proof. induction s; simpl; auto. Qed.

Lemma matches_Alternate (s : string) :
  forall r1 r2, matches (Alternate r1 r2) s = matches r1 s || matches r2 s.
Proof. induction s; simpl; intros; auto. Qed.

Lemma matches_Concat_EmptyMatch (r : syntax) (s : string) :
  matches (Concat EmptyMatch r) s = matches r s.
Proof.
  destruct s as [| c t]; simpl; [reflexivity |].
  now rewrite matches_Alternate, matches_Concat_NoMatch.
Qed.

(** After one character of the class, [c*] and [c+] go on alike. *)
Lemma matches_class_head (ranges : list (ascii * ascii)) (c : ascii)
    (r : syntax) (t : string) :
  matches (Concat (deriv c (CharClass ranges)) r) t =
  inClass ranges c && matches r t.
Proof.
  simpl. destruct (inClass ranges c); simpl.
  - apply matches_Concat_EmptyMatch.
  - apply matches_Concat_NoMatch.
Qed.

Lemma matches_Star_class (ranges : list (ascii * ascii)) (s : string) :
  matches (Star (CharClass ranges)) s = GoStrings.forallb (inClass ranges) s.
Proof.
  induction s as [| c t IH]; [reflexivity |].
  change (matches (Star (CharClass ranges)) (String c t))
    with (matches (Concat (deriv c (CharClass ranges)) (Star (CharClass ranges))) t).
  now rewrite matches_class_head, IH.
Qed.

Lemma matches_Plus_class (ranges : list (ascii * ascii)) (s : string) :
  matches (Plus (CharClass ranges)) s =
  negb (String.length s =? 0)%nat && GoStrings.forallb (inClass ranges) s.
Proof.
  destruct s as [| c t]; [reflexivity |].
  change (matches (Plus (CharClass ranges)) (String c t))
    with (matches (Concat (deriv c (CharClass ranges)) (Star (CharClass ranges))) t).
  now rewrite matches_class_head, matches_Star_class.
Qed.

End RegexpFacts.

(** ** The name validator *)

Lemma forallb_everyChar (p : ascii -> bool) (P : ascii -> Prop) (s : string) :
  (forall c, p c = true <-> P c) ->
  GoStrings.forallb p s = true <-> everyChar P s.
Proof.
  intros Hp. unfold everyChar.
  induction s as [| c t IH]; simpl.
  - split; [intros _ c [] | reflexivity].
  - rewrite andb_true_iff, IH, Hp. split.
    + intros [Hc Ht] d [<- | Hd]; auto.
    + intros H. split; [apply H; now left | intros d Hd; apply H; now right].
Qed.

Lemma byteVal_inj (a b : ascii) : GoStrings.byteVal a = GoStrings.byteVal b -> a = b.
Proof.
  unfold GoStrings.byteVal. intros H.
  rewrite <- (ascii_N_embedding a), <- (ascii_N_embedding b). now rewrite H.
Qed.

Lemma bnsClass_bnsChar (c : ascii) :
  Regexp.inClass [("0", "9"); ("a", "z"); ("-", "-")]%char c = true <-> bnsChar c.
Proof.
  unfold Regexp.inClass, bnsChar, GoStrings.inRange. simpl.
  rewrite !orb_true_iff, !andb_true_iff, !N.leb_le.
  change (GoStrings.byteVal "0") with 48%N.
  change (GoStrings.byteVal "9") with 57%N.
  change (GoStrings.byteVal "a") with 97%N.
  change (GoStrings.byteVal "z") with 122%N.
  change (GoStrings.byteVal "-") with 45%N.
  split.
  - intros [H | [H | [H | H]]]; [now left | right; now left | | discriminate].
    right; right. apply byteVal_inj.
    change (GoStrings.byteVal "-") with 45%N. lia.
  - intros [H | [H | ->]]; [now left | right; now left |].
    right; right; left. change (GoStrings.byteVal "-") with 45%N. lia.
Qed.

Lemma isValidBNS_iff (name : string) :
  isValidBNS name = true <->
  7 <= String.length name <= 32 /\ everyChar bnsChar name.
Proof.
  unfold isValidBNS, bnsPattern, Regexp.Match. simpl Regexp.body.
  rewrite RegexpFacts.matches_Plus_class.
  rewrite <- (forallb_everyChar _ _ name bnsClass_bnsChar).
  destruct (String.length name <? 7)%nat eqn:Hlo; simpl.
  - apply Nat.ltb_lt in Hlo. split; [discriminate | lia].
  - apply Nat.ltb_ge in Hlo.
    destruct (32 <? String.length name)%nat eqn:Hhi.
    + apply Nat.ltb_lt in Hhi. split; [discriminate | lia].
    + apply Nat.ltb_ge in Hhi.
      destruct (String.length name =? 0)%nat eqn:H0.
      * apply Nat.eqb_eq in H0. lia.
      * simpl. split; [intros H; split; [lia | exact H] | intros [_ H]; exact H].
Qed.

(** C4.  [isValidBNS] is a total boolean function; it answers [true]
    exactly on the strings of 7 to 32 characters that are all digits,
    lowercase ascii letters or hyphens, and [false] on every string that
    is too short, too long or holds another character. *)
Theorem isValidBNS_spec (name : string) :
  (isValidBNS name = true <->
   7 <= String.length name <= 32 /\ everyChar bnsChar name) /\
  (String.length name < 7 \/ 32 < String.length name \/
   (exists c, In c (list_ascii_of_string name) /\ ~ bnsChar c) ->
   isValidBNS name = false).
Proof.
  split; [apply isValidBNS_iff |].
  intros H. apply not_true_is_false. rewrite isValidBNS_iff.
  intros [Hlen Hall]. destruct H as [H | [H | [c [Hin Hc]]]]; [lia | lia |].
  apply Hc, Hall, Hin.
Qed.

Example isValidBNS_hello_world : isValidBNS "hello-world" = true.
Proof. reflexivity. Qed.

Example isValidBNS_six_characters : isValidBNS "shortn" = false.
Proof. reflexivity. Qed.

Example isValidBNS_upper_case : isValidBNS "Hello-World" = false.
Proof. reflexivity. Qed.

(** ** Addresses *)

Lemma Address_eqb_eq (a b : Address) : Address_eqb a b = true <-> a = b.
Proof.
  revert b. induction a as [| x a IH]; intros [| y b]; simpl;
    try (split; [discriminate | discriminate]); [tauto |].
  rewrite andb_true_iff, IH. split.
  - intros [Hxy ->]. now rewrite (Byte.byte_dec_bl _ _ Hxy).
  - intros H. injection H as -> ->. split; [now apply Byte.byte_dec_lb | reflexivity].
Qed.

Lemma Address_eqb_refl (a : Address) : Address_eqb a a = true.
Proof. now apply Address_eqb_eq. Qed.

Lemma Address_eqb_neq (a b : Address) : Address_eqb a b = false <-> a <> b.
Proof.
  rewrite <- Address_eqb_eq. destruct (Address_eqb a b); split; congruence.
Qed.

(** ** Runs *)

Section RunFacts.

Variable E : Env.

Lemma bind_Ret (A B : Type) (m : Prog E A) (k : A -> Prog E B)
    (w w1 : World (Ledger E)) (a : A) :
  m w = Ret a w1 -> bind m k w = k a w1.
Proof. unfold bind. now intros ->. Qed.

Lemma bind_Hang (A B : Type) (m : Prog E A) (k : A -> Prog E B)
    (w w1 : World (Ledger E)) :
  m w = Hang w1 -> bind m k w = Hang w1.
Proof. unfold bind. now intros ->. Qed.

Lemma awaitHeight_S (fuel : nat) (bn : N) (w : World (Ledger E)) :
  awaitHeight E (S fuel) bn w =
  let bn2 := fst (LastValid E (net w)) in
  let w1 := mkWorld (snd (LastValid E (net w))) (trace w ++ [EvLastValid]) (out w) in
  if negb (bn =? bn2)%N then Ret tt w1
  else awaitHeight E fuel bn
         (mkWorld (Sleep E 100 (net w1)) (trace w1 ++ [EvSleep 100]) (out w1)).
Proof.
  simpl. unfold bind, lastValid, call, sleep. simpl.
  destruct (negb (bn =? fst (LastValid E (net w)))%N); reflexivity.
Qed.

(** More fuel does not change a height wait that ended. *)
Lemma awaitHeight_mono (fuel : nat) :
  forall (bn : N) (w w' : World (Ledger E)) (fuel' : nat),
    awaitHeight E fuel bn w = Ret tt w' ->
    fuel <= fuel' ->
    awaitHeight E fuel' bn w = Ret tt w'.
Proof.
  induction fuel as [| fuel IH]; intros bn w w' fuel' Hrun Hle.
  - discriminate Hrun.
  - destruct fuel' as [| fuel']; [lia |].
    rewrite awaitHeight_S in *. cbv zeta in *.
    destruct (negb (bn =? fst (LastValid E (net w)))%N); [exact Hrun |].
    apply IH; [exact Hrun | lia].
Qed.

Variable Inv : Ledger E -> Prop.
Hypothesis Hstable : stable E Inv.

Lemma stable_poll (l : Ledger E) : Inv l -> Inv (snd (LastValid E l)).
Proof. intros Hl. apply (Hstable l Hl). Qed.

Lemma stable_sleep (l : Ledger E) : Inv l -> Inv (Sleep E 100 l).
Proof. intros Hl. apply (Hstable l Hl). Qed.

Lemma awaitHeight_keeps (fuel : nat) :
  forall (bn : N) (w w' : World (Ledger E)),
    Inv (net w) -> awaitHeight E fuel bn w = Ret tt w' -> Inv (net w').
Proof.
  induction fuel as [| fuel IH]; intros bn w w' Hinv Hrun.
  - discriminate Hrun.
  - rewrite awaitHeight_S in Hrun. cbv zeta in Hrun.
    destruct (negb (bn =? fst (LastValid E (net w)))%N).
    + injection Hrun as <-. apply stable_poll, Hinv.
    + refine (IH _ _ _ _ Hrun). simpl. apply stable_sleep, stable_poll, Hinv.
Qed.

(** A height wait ends when the height moves. *)
Lemma awaitHeight_ends (bn : N) (n : nat) :
  forall w : World (Ledger E),
    fst (LastValid E (polled E n (net w))) <> bn ->
    exists fuel w', awaitHeight E fuel bn w = Ret tt w'.
Proof.
  induction n as [| n IH]; intros w Hn; simpl in Hn.
  - exists 1. eexists. rewrite awaitHeight_S. cbv zeta.
    replace (bn =? fst (LastValid E (net w)))%N with false; [reflexivity |].
    symmetry. apply N.eqb_neq. congruence.
  - destruct (bn =? fst (LastValid E (net w)))%N eqn:Hbn.
    + edestruct IH as [fuel [w' Hrun]]; [| exists (S fuel), w'].
      2:{ rewrite awaitHeight_S. cbv zeta. rewrite Hbn. simpl negb. cbv iota.
          exact Hrun. }
      exact Hn.
    + exists 1. eexists. rewrite awaitHeight_S. cbv zeta. rewrite Hbn. reflexivity.
Qed.

Lemma waitLoop_S (fuel : nat) (condition : Prog E bool) (budget : nat) :
  waitLoop E fuel condition (S budget) =
  bind (lastValid E) (fun bn =>
    bind condition (fun ok =>
      if ok then printInfo "Transaction executed successfully!"
      else bind (awaitHeight E fuel bn)
                (fun _ => waitLoop E fuel condition budget))).
Proof. reflexivity. Qed.

Lemma waitLoop_times_out (condition : Prog E bool) :
  heightMoves E Inv ->
  neverTrue E Inv condition ->
  forall (budget : nat) (w : World (Ledger E)),
    Inv (net w) ->
    exists fuel w',
      (forall fuel', fuel <= fuel' ->
                     waitLoop E fuel' condition budget w = Ret tt w') /\
      exists printed, out w' = printed ++ [timedOut].
Proof.
  intros Hlive Hnever. induction budget as [| budget IH]; intros w Hinv.
  - exists 0. eexists. split; [intros; reflexivity |].
    exists (out w). reflexivity.
  - pose (w1 := mkWorld (snd (LastValid E (net w))) (trace w ++ [EvLastValid]) (out w)).
    destruct (Hnever w1) as [w2 [Hcond Hinv2]]; [apply stable_poll, Hinv |].
    destruct (Hlive (net w2) (fst (LastValid E (net w))) Hinv2) as [n Hn].
    destruct (awaitHeight_ends _ _ w2 Hn) as [f1 [w3 Hawait]].
    destruct (IH w3) as [f2 [w4 [Hrest Hout]]];
      [apply (awaitHeight_keeps _ _ _ _ Hinv2 Hawait) |].
    exists (Nat.max f1 f2), w4. split; [| exact Hout].
    intros fuel' Hle. rewrite waitLoop_S.
    unfold bind at 1. unfold lastValid, call. fold w1.
    rewrite (bind_Ret _ _ _ _ _ _ _ Hcond).
    rewrite (bind_Ret _ _ _ _ _ _ _ (awaitHeight_mono _ _ _ _ fuel' Hawait ltac:(lia))).
    apply Hrest. lia.
Qed.

(** C2, as the program has it.  When the height of the ledger does not
    stay at one value for ever, a confirmation wait whose predicate
    never becomes true returns, and the last thing it prints is the
    report of the timeout: the 6000 iterations of the budget are used
    up. *)
Theorem wait_times_out (condition : Prog E bool) (w : World (Ledger E)) :
  heightMoves E Inv ->
  neverTrue E Inv condition ->
  Inv (net w) ->
  exists fuel w',
    (forall fuel', fuel <= fuel' -> wait E fuel' condition w = Ret tt w') /\
    exists printed, out w' = printed ++ [timedOut].
Proof.
  intros Hlive Hnever Hinv.
  destruct (waitLoop_times_out condition Hlive Hnever waitBudget
              (mkWorld (net w) (trace w)
                 (out w ++ [PrintInfo "Waiting for block to be confirmed - expect to wait 5 minutes"]))
              Hinv)
    as [fuel [w' [Hrun Hout]]].
  exists fuel, w'. split; [| exact Hout].
  intros fuel' Hle. unfold wait, bind, printInfo, print.
  apply Hrun, Hle.
Qed.

End RunFacts.

Lemma waitBudget_S : waitBudget = S (N.to_nat 5999).
Proof. vm_compute. reflexivity. Qed.

(** ** The simulated ledger *)

Module SimFacts.
Import Sim.

Lemma advancing_stable (caller : Address) :
  stable (env caller true) sameRecords.
Proof. intros l Hl. split; exact Hl. Qed.

Lemma advancing_heightMoves (caller : Address) :
  heightMoves (env caller true) sameRecords.
Proof.
  intros l bn _. destruct (N.eq_dec (height l) bn) as [Heq | Hne].
  - exists 1. simpl. lia.
  - exists 0. exact Hne.
Qed.

Lemma awaitsBinding_neverTrue (caller : Address) (advancing : bool) :
  neverTrue (env caller advancing) sameRecords (awaitsBinding caller advancing).
Proof.
  intros w Hw. eexists. unfold awaitsBinding, bind, resolveBNS, call, ret.
  simpl. unfold resolve. rewrite Hw. simpl. split; [reflexivity | exact Hw].
Qed.

(** On a ledger whose height stands still a height wait never ends. *)
Lemma stalled_awaitHeight (caller : Address) (fuel : nat) :
  forall w : World SimLedger,
    exists w', awaitHeight (env caller false) fuel (height (net w)) w = Hang w' /\
               records (net w') = records (net w).
Proof.
  induction fuel as [| fuel IH]; intros w.
  - exists w. split; reflexivity.
  - rewrite awaitHeight_S. cbv zeta. simpl. rewrite N.eqb_refl. simpl.
    apply (IH (mkWorld (net w) ((trace w ++ [EvLastValid]) ++ [EvSleep 100]) (out w))).
Qed.

Lemma stalled_waitLoop (caller : Address) (fuel budget : nat)
    (w : World SimLedger) :
  sameRecords (net w) ->
  exists w',
    waitLoop (env caller false) fuel (awaitsBinding caller false) (S budget) w
    = Hang w'.
Proof.
  intros Hw. rewrite waitLoop_S.
  destruct w as [l t o]. unfold sameRecords in Hw. cbn in Hw.
  unfold bind at 1, lastValid, call.
  unfold bind at 1, awaitsBinding, bind at 1, resolveBNS, call, ret.
  cbn. unfold resolve. rewrite Hw. cbn.
  match goal with
  | |- exists _, bind (awaitHeight _ _ _) _ ?w1 = _ =>
      destruct (stalled_awaitHeight caller fuel w1) as [w2 [Hhang _]];
      exists w2; exact (bind_Hang (env caller false) _ _ _ _ _ _ Hhang)
  end.
Qed.

End SimFacts.

(** The witness of C2: on a ledger whose height moves at every sleep, the
    wait for a binding that never appears gives up. *)
Lemma wait_times_out_witness :
  exists fuel w',
    (forall fuel', fuel <= fuel' ->
       wait (Sim.env Sim.addr1 true) fuel' (Sim.awaitsBinding Sim.addr1 true)
            Sim.world0 = Ret tt w') /\
    exists printed, out w' = printed ++ [timedOut].
Proof.
  apply (wait_times_out (Sim.env Sim.addr1 true) Sim.sameRecords
           (SimFacts.advancing_stable Sim.addr1)
           (Sim.awaitsBinding Sim.addr1 true) Sim.world0
           (SimFacts.advancing_heightMoves Sim.addr1)
           (SimFacts.awaitsBinding_neverTrue Sim.addr1 true)).
  reflexivity.
Defined.

(** C2, as the specification has it, fails: on a ledger whose height
    stands still the predicate never becomes true and the wait never
    returns, whatever the number of polls it is given. *)
Lemma wait_hangs_when_height_stalls :
  neverTrue (Sim.env Sim.addr1 false) Sim.sameRecords
    (Sim.awaitsBinding Sim.addr1 false) /\
  ~ exists fuel w',
      wait (Sim.env Sim.addr1 false) fuel (Sim.awaitsBinding Sim.addr1 false)
           Sim.world0 = Ret tt w'.
Proof.
  split; [apply SimFacts.awaitsBinding_neverTrue |].
  intros [fuel [w' Hrun]].
  unfold wait, bind at 1, printInfo, print in Hrun.
  rewrite waitBudget_S in Hrun.
  match type of Hrun with
  | waitLoop _ _ _ _ ?w = _ =>
      destruct (SimFacts.stalled_waitLoop Sim.addr1 fuel (N.to_nat 5999) w
                  eq_refl) as [w1 Hhang]
  end.
  rewrite Hhang in Hrun. discriminate Hrun.
Qed.

(** ** The handlers *)

Arguments waitBudget : simpl never.

Ltac exec :=
  cbn [fst snd net trace out negb andb orb isNil index nth worldOf].

Ltac unfold_calls :=
  unfold validate, getAccountNonce, decodeAddress, newTransaction,
    resolveBNS, resolveBNSOwner, sendTransaction, getBlockPeak, appStart,
    printError, printLabel, printInfo, print, step, call, bind, ret.

Lemma submissions_app (t1 t2 : list Event) :
  submissions (t1 ++ t2) = submissions t1 + submissions t2.
Proof. unfold submissions. now rewrite filter_app, length_app. Qed.

Lemma Split_nonempty_input (s a b : string) (rest : list string) :
  GoStrings.Split s "=" = a :: b :: rest -> (String.length s =? 0)%nat = false.
Proof. destruct s; [discriminate | reflexivity]. Qed.

Lemma valid_nonempty_input (E : Env) (s : string) :
  isValidBNS (ToLower E s) = true -> (String.length s =? 0)%nat = false.
Proof. destruct s; [discriminate | reflexivity]. Qed.

Section HandlerFacts.

Variable E : Env.
Variable cfg : Config.

(** C5.  A request to register [name=addr], with a valid name and a
    well-formed address, for a name that resolves to [addr] already:
    the handler reports that the name is mapped to this address
    already, returns without an error and submits nothing. *)
Theorem register_already_bound (fuel : nat) (w : World (Ledger E))
    (name text : string) (rest : list string) (addr : Address)
    (l' : Ledger E) :
  GoStrings.Split (BNSRegister cfg) "=" = name :: text :: rest ->
  snd (NewBNSContract E) = None ->
  isValidBNS (ToLower E name) = true ->
  DecodeAddress E text = (addr, None) ->
  ResolveBNS E (ToLower E name)
    (snd (GetAccountNonce E 0 (ClientAddr cfg) (net w))) = ((addr, None), l') ->
  exists w',
    handleRegister E cfg fuel w = Ret (true, None) w' /\
    net w' = l' /\
    out w' = out w ++ [alreadyMapped] /\
    trace w' = trace w ++ [EvValidate (ToLower E name);
                           EvGetAccountNonce 0 (ClientAddr cfg);
                           EvDecodeAddress text;
                           EvResolveBNS (ToLower E name)] /\
    submissions (trace w') = submissions (trace w).
Proof.
  intros Hsplit Hcontract Hvalid Hdecode Hresolve.
  unfold handleRegister.
  rewrite (Split_nonempty_input _ _ _ _ Hsplit), Hsplit, Hcontract.
  cbn [List.length Nat.ltb Nat.leb]. unfold_calls.
  exec. rewrite Hvalid. exec.
  rewrite Hdecode. exec.
  rewrite Hresolve. exec.
  rewrite Address_eqb_refl.
  eexists. split; [reflexivity |]. exec.
  rewrite <- !app_assoc. cbn [app].
  repeat split. rewrite submissions_app. cbn. lia.
Qed.

(** C6.  A request to unregister a valid name whose owner resolves to
    the all-zero address: the handler returns the error that the name
    is free already and submits nothing. *)
Theorem unregister_already_free (fuel : nat) (w : World (Ledger E)) :
  snd (NewBNSContract E) = None ->
  isValidBNS (ToLower E (BNSUnregister cfg)) = true ->
  fst (fst (ResolveBNSOwner E (ToLower E (BNSUnregister cfg))
              (snd (GetAccountNonce E 0 (ClientAddr cfg) (net w)))))
  = zeroAddress ->
  exists w',
    handleUnregister E cfg fuel w = Ret (true, Some alreadyFreeError) w' /\
    out w' = out w /\
    trace w' = trace w ++ [EvValidate (ToLower E (BNSUnregister cfg));
                           EvGetAccountNonce 0 (ClientAddr cfg);
                           EvResolveBNSOwner (ToLower E (BNSUnregister cfg))] /\
    submissions (trace w') = submissions (trace w).
Proof.
  intros Hcontract Hvalid Howner.
  unfold handleUnregister.
  rewrite (valid_nonempty_input _ _ Hvalid), Hcontract.
  unfold_calls. exec. rewrite Hvalid. exec.
  rewrite Howner. change (Address_eqb zeroAddress zeroAddress) with true.
  cbv iota.
  eexists. split; [reflexivity |]. exec.
  rewrite <- !app_assoc. cbn [app].
  repeat split. rewrite submissions_app. cbn. lia.
Qed.

(** C1, as the program has it.  A request to transfer a valid name to
    a well-formed address, when the owner of the name resolves and is
    not the caller: the handler returns an error and submits nothing.
    The error is that the name is owned by somebody else, unless the
    owner is the requested new owner: then it is that the name is
    owned by the new owner already. *)
Theorem transfer_not_owner (fuel : nat) (w : World (Ledger E))
    (name text : string) (newOwner owner : Address) (l' : Ledger E) :
  GoStrings.Split (BNSTransfer cfg) "=" = [name; text] ->
  snd (NewBNSContract E) = None ->
  isValidBNS (ToLower E name) = true ->
  DecodeAddress E text = (newOwner, None) ->
  ResolveBNSOwner E (ToLower E name)
    (snd (GetAccountNonce E 0 (ClientAddr cfg) (net w))) = ((owner, None), l') ->
  owner <> clientAddr E ->
  exists w',
    handleTransfer E cfg fuel w
    = Ret (true, Some (snd (transferRefusal owner newOwner))) w' /\
    net w' = l' /\
    out w' = out w ++ [PrintError (fst (transferRefusal owner newOwner))
                                  (Some (snd (transferRefusal owner newOwner)))] /\
    trace w' = trace w ++ [EvValidate (ToLower E name);
                           EvGetAccountNonce 0 (ClientAddr cfg);
                           EvDecodeAddress text;
                           EvResolveBNSOwner (ToLower E name)] /\
    submissions (trace w') = submissions (trace w).
Proof.
  intros Hsplit Hcontract Hvalid Hdecode Hresolve Hcaller.
  unfold handleTransfer.
  rewrite Hsplit, Hcontract.
  cbn [List.length Nat.eqb]. unfold_calls.
  exec. rewrite Hvalid. exec.
  rewrite Hdecode. exec.
  rewrite Hresolve. exec.
  apply Address_eqb_neq in Hcaller. rewrite Hcaller. exec.
  unfold transferRefusal.
  destruct (Address_eqb owner newOwner);
    eexists; (split; [reflexivity |]); exec;
    rewrite <- !app_assoc; cbn [app];
    repeat split; rewrite submissions_app; cbn; lia.
Qed.

End HandlerFacts.

(** The witness of C5: [hello-world] is bound to 0x22..22 and is
    registered to it again. *)
Lemma register_already_bound_witness :
  exists w',
    handleRegister (Sim.env Sim.addr1 false) Sim.registerBound 0 Sim.world0
    = Ret (true, None) w' /\
    net w' = Sim.ledger0 /\
    out w' = [alreadyMapped] /\
    trace w' = [EvValidate "hello-world"; EvGetAccountNonce 0 Sim.addr1;
                EvDecodeAddress Sim.text2; EvResolveBNS "hello-world"] /\
    submissions (trace w') = 0.
Proof.
  apply (register_already_bound (Sim.env Sim.addr1 false) Sim.registerBound 0
           Sim.world0 "hello-world" Sim.text2 [] Sim.addr2 Sim.ledger0);
    reflexivity.
Defined.

(** The witness of C6: [free-name] was given back and is given back
    again. *)
Lemma unregister_already_free_witness :
  exists w',
    handleUnregister (Sim.env Sim.addr1 false) Sim.unregisterFree 0 Sim.world0
    = Ret (true, Some alreadyFreeError) w' /\
    out w' = [] /\
    trace w' = [EvValidate "free-name"; EvGetAccountNonce 0 Sim.addr1;
                EvResolveBNSOwner "free-name"] /\
    submissions (trace w') = 0.
Proof.
  apply (unregister_already_free (Sim.env Sim.addr1 false) Sim.unregisterFree 0
           Sim.world0);
    reflexivity.
Defined.

(** The witness of C1: 0x22..22 transfers [hello-world], which 0x11..11
    owns, to 0x33..33. *)
Lemma transfer_not_owner_witness :
  exists w',
    handleTransfer (Sim.env Sim.addr2 false) Sim.transferByStranger 0 Sim.world0
    = Ret (true, Some (ownedByError Sim.addr1)) w' /\
    net w' = Sim.ledger0 /\
    out w' = [PrintError "BNS name can't be transfered"
                         (Some (ownedByError Sim.addr1))] /\
    trace w' = [EvValidate "hello-world"; EvGetAccountNonce 0 Sim.addr2;
                EvDecodeAddress Sim.text3; EvResolveBNSOwner "hello-world"] /\
    submissions (trace w') = 0.
Proof.
  apply (transfer_not_owner (Sim.env Sim.addr2 false) Sim.transferByStranger 0
           Sim.world0 "hello-world" Sim.text3 Sim.addr3 Sim.addr1 Sim.ledger0);
    try reflexivity.
  discriminate.
Defined.

(** C1, as the specification has it, fails: 0x22..22 does not own
    [hello-world] and asks to transfer it to 0x11..11, who owns it.  The
    handler answers that the name is owned by the new owner already,
    which is not the refusal for a name of another owner. *)
Lemma transfer_to_owner_is_not_conflict :
  fst (fst (ResolveBNSOwner (Sim.env Sim.addr2 false) "hello-world" Sim.ledger0))
  <> clientAddr (Sim.env Sim.addr2 false) /\
  handleTransfer (Sim.env Sim.addr2 false) Sim.transferToOwner 0 Sim.world0
  = Ret (true, Some (alreadyOwnedError Sim.addr1))
        (mkWorld Sim.ledger0
           [EvValidate "hello-world"; EvGetAccountNonce 0 Sim.addr2;
            EvDecodeAddress Sim.text1; EvResolveBNSOwner "hello-world"]
           [PrintError "BNS name already transferred"
                       (Some (alreadyOwnedError Sim.addr1))]) /\
  alreadyOwnedError Sim.addr1 <> ownedByError Sim.addr1.
Proof.
  split; [discriminate |]. split; [reflexivity | discriminate].
Qed.

(** ** The dispatch *)

Lemma takesRequest_ret (L : Type) (err : option error) :
  takesRequest (ret (L := L) (true, err)).
Proof. intros w. reflexivity. Qed.

Lemma takesRequest_bind (L A : Type) (m : M L A)
    (k : A -> M L (bool * option error)) :
  (forall a, takesRequest (k a)) -> takesRequest (bind m k).
Proof.
  intros Hk w. unfold bind. destruct (m w) as [a w' | w']; [apply Hk | exact I].
Qed.

Ltac takes_request :=
  cbv zeta;
  repeat first
    [ apply takesRequest_ret
    | apply takesRequest_bind; intro
    | match goal with
      | |- takesRequest (match ?x with _ => _ end) => destruct x
      end ].

Section DispatchFacts.

Variable E : Env.
Variable cfg : Config.

Lemma handleRegister_skip (fuel : nat) (w : World (Ledger E)) :
  (String.length (BNSRegister cfg) =? 0)%nat = true ->
  handleRegister E cfg fuel w = Ret (false, None) w.
Proof. intros H. unfold handleRegister. now rewrite H. Qed.

Lemma handleUnregister_skip (fuel : nat) (w : World (Ledger E)) :
  (String.length (BNSUnregister cfg) =? 0)%nat = true ->
  handleUnregister E cfg fuel w = Ret (false, None) w.
Proof. intros H. unfold handleUnregister. now rewrite H. Qed.

Lemma handleTransfer_skip (fuel : nat) (w : World (Ledger E)) :
  (List.length (GoStrings.Split (BNSTransfer cfg) "=") =? 2)%nat = false ->
  handleTransfer E cfg fuel w = Ret (false, None) w.
Proof. intros H. unfold handleTransfer. now rewrite H. Qed.

Lemma handleLookup_skip (w : World (Ledger E)) :
  (String.length (ToLower E (BNSLookup cfg)) =? 0)%nat = true ->
  handleLookup E cfg w = Ret (false, None) w.
Proof. intros H. unfold handleLookup. now rewrite H. Qed.

Lemma handleRegister_takes (fuel : nat) :
  (String.length (BNSRegister cfg) =? 0)%nat = false ->
  takesRequest (handleRegister E cfg fuel).
Proof. intros H. unfold handleRegister. rewrite H. takes_request. Qed.

Lemma handleUnregister_takes (fuel : nat) :
  (String.length (BNSUnregister cfg) =? 0)%nat = false ->
  takesRequest (handleUnregister E cfg fuel).
Proof. intros H. unfold handleUnregister. rewrite H. takes_request. Qed.

Lemma handleTransfer_takes (fuel : nat) :
  (List.length (GoStrings.Split (BNSTransfer cfg) "=") =? 2)%nat = true ->
  takesRequest (handleTransfer E cfg fuel).
Proof.
  intros H. unfold handleTransfer. rewrite H. cbn [negb]. takes_request.
Qed.

Lemma handleLookup_takes :
  (String.length (ToLower E (BNSLookup cfg)) =? 0)%nat = false ->
  takesRequest (handleLookup E cfg).
Proof. intros H. unfold handleLookup. rewrite H. takes_request. Qed.

Lemma orElse_skip (handler : Prog E (bool * option error))
    (next : Prog E (option error)) (w : World (Ledger E)) :
  handler w = Ret (false, None) w -> orElse E handler next w = next w.
Proof. intros H. unfold orElse, bind. now rewrite H. Qed.

Lemma orElse_takes (handler : Prog E (bool * option error))
    (next : Prog E (option error)) (w : World (Ledger E)) :
  takesRequest handler ->
  orElse E handler next w = bind handler (fun r => ret (snd r)) w.
Proof.
  intros H. unfold orElse, bind. specialize (H w).
  destruct (handler w) as [[done err] w' | w']; [| reflexivity].
  cbn in H. subst done. reflexivity.
Qed.

(** C10.  A transfer input that does not split on [=] into exactly two
    parts, that is one in which [=] does not occur exactly once: the
    transfer handler returns [done = false] and no error, and leaves the
    world as it found it (nothing validated, accessed, submitted or
    printed); the dispatch goes on with the handler that follows. *)
Theorem transfer_not_applicable (fuel : nat) (w : World (Ledger E)) :
  List.length (GoStrings.Split (BNSTransfer cfg) "=") <> 2 ->
  GoStrings.count (fun c => Ascii.eqb c "=") (BNSTransfer cfg) <> 1 /\
  handleTransfer E cfg fuel w = Ret (false, None) w /\
  forall next, orElse E (handleTransfer E cfg fuel) next w = next w.
Proof.
  intros Hparts. split.
  - rewrite GoStringsFacts.Split_length in Hparts. lia.
  - assert (Hskip : handleTransfer E cfg fuel w = Ret (false, None) w)
      by (apply handleTransfer_skip, Nat.eqb_neq, Hparts).
    split; [exact Hskip |]. intros next. apply orElse_skip, Hskip.
Qed.

End DispatchFacts.

(** The inputs C10 names: no input, a bare name, two separators. *)
Example Split_no_input : GoStrings.Split "" "=" = [""].
Proof. reflexivity. Qed.

Example Split_bare_name : GoStrings.Split "hello-world" "=" = ["hello-world"].
Proof. reflexivity. Qed.

Example Split_two_separators : GoStrings.Split "a=b=c" "=" = ["a"; "b"; "c"].
Proof. reflexivity. Qed.

(** The witness of C10: a transfer input without [=]. *)
Lemma transfer_not_applicable_witness :
  GoStrings.count (fun c => Ascii.eqb c "=") "abcdefg" <> 1 /\
  handleTransfer (Sim.env Sim.addr1 false) Sim.bareTransferAndLookup 0 Sim.world0
  = Ret (false, None) Sim.world0 /\
  forall next,
    orElse (Sim.env Sim.addr1 false)
      (handleTransfer (Sim.env Sim.addr1 false) Sim.bareTransferAndLookup 0)
      next Sim.world0
    = next Sim.world0.
Proof.
  apply (transfer_not_applicable (Sim.env Sim.addr1 false)
           Sim.bareTransferAndLookup 0 Sim.world0).
  discriminate.
Defined.

(** ** The orchestrator *)

Section OrchestratorFacts.

Variable E : Env.

(** The program before the dispatch: the start of the client and the
    read of the block peak. *)
Lemma bnsHandler_dispatch (cfg : Config) (fuel : nat) (w : World (Ledger E))
    (l1 : Ledger E) :
  Start E (net w) = (None, l1) ->
  fst (fst (GetBlockPeak E l1)) <> 0%N ->
  bnsHandler E cfg fuel w =
  dispatch E cfg fuel
    (mkWorld (snd (GetBlockPeak E l1)) (trace w ++ [EvStart; EvGetBlockPeak])
       (out w)).
Proof.
  intros Hstart Hpeak. unfold bnsHandler. unfold_calls. exec.
  rewrite Hstart. exec.
  apply N.eqb_neq in Hpeak. rewrite Hpeak.
  rewrite <- app_assoc. reflexivity.
Qed.

Lemma dispatch_none (cfg : Config) (fuel : nat) (w : World (Ledger E)) :
  firstApplicable E cfg = None ->
  dispatch E cfg fuel w =
  Ret None (mkWorld (net w) (trace w) (out w ++ [usageReport])).
Proof.
  unfold firstApplicable. intros H.
  destruct (String.length (BNSRegister cfg) =? 0)%nat eqn:Hr; [| discriminate H].
  destruct (String.length (BNSUnregister cfg) =? 0)%nat eqn:Hu; [| discriminate H].
  destruct (List.length (GoStrings.Split (BNSTransfer cfg) "=") =? 2)%nat eqn:Ht;
    [discriminate H |].
  destruct (String.length (ToLower E (BNSLookup cfg)) =? 0)%nat eqn:Hl;
    [| discriminate H].
  unfold dispatch.
  rewrite (orElse_skip E _ _ _ (handleRegister_skip E cfg fuel w Hr)).
  rewrite (orElse_skip E _ _ _ (handleUnregister_skip E cfg fuel w Hu)).
  rewrite (orElse_skip E _ _ _ (handleTransfer_skip E cfg fuel w Ht)).
  rewrite (orElse_skip E _ _ _ (handleLookup_skip E cfg w Hl)).
  reflexivity.
Qed.

Lemma dispatch_some (cfg : Config) (op : Operation) (fuel : nat)
    (w : World (Ledger E)) :
  firstApplicable E cfg = Some op ->
  dispatch E cfg fuel w =
  bind (handlerOf E cfg fuel op) (fun r => ret (snd r)) w.
Proof.
  unfold firstApplicable. intros H. unfold dispatch.
  destruct (String.length (BNSRegister cfg) =? 0)%nat eqn:Hr.
  2:{ injection H as <-. apply orElse_takes, handleRegister_takes, Hr. }
  rewrite (orElse_skip E _ _ _ (handleRegister_skip E cfg fuel w Hr)).
  destruct (String.length (BNSUnregister cfg) =? 0)%nat eqn:Hu.
  2:{ injection H as <-. apply orElse_takes, handleUnregister_takes, Hu. }
  rewrite (orElse_skip E _ _ _ (handleUnregister_skip E cfg fuel w Hu)).
  destruct (List.length (GoStrings.Split (BNSTransfer cfg) "=") =? 2)%nat eqn:Ht.
  { injection H as <-. apply orElse_takes, handleTransfer_takes, Ht. }
  rewrite (orElse_skip E _ _ _ (handleTransfer_skip E cfg fuel w Ht)).
  destruct (String.length (ToLower E (BNSLookup cfg)) =? 0)%nat eqn:Hl;
    [discriminate H |].
  injection H as <-. apply orElse_takes, handleLookup_takes, Hl.
Qed.

Lemma firstApplicable_only (cfg : Config) (op : Operation) :
  firstApplicable E cfg = Some op ->
  firstApplicable E (only op cfg) = Some op.
Proof.
  unfold firstApplicable. intros H.
  destruct (String.length (BNSRegister cfg) =? 0)%nat eqn:Hr.
  2:{ injection H as <-. cbn [only BNSRegister]. now rewrite Hr. }
  destruct (String.length (BNSUnregister cfg) =? 0)%nat eqn:Hu.
  2:{ injection H as <-. cbn [only BNSRegister BNSUnregister]. now rewrite Hu. }
  destruct (List.length (GoStrings.Split (BNSTransfer cfg) "=") =? 2)%nat eqn:Ht.
  { injection H as <-. cbn [only BNSRegister BNSUnregister BNSTransfer].
    now rewrite Ht. }
  destruct (String.length (ToLower E (BNSLookup cfg)) =? 0)%nat eqn:Hl;
    [discriminate H |].
  injection H as <-.
  cbn [only BNSRegister BNSUnregister BNSTransfer BNSLookup]. now rewrite Hl.
Qed.

Lemma handlerOf_only (cfg : Config) (op : Operation) (fuel : nat) :
  handlerOf E (only op cfg) fuel op = handlerOf E cfg fuel op.
Proof. destruct op; reflexivity. Qed.

(** C8, as the program has it.  The request goes to the first handler, in
    the order register, unregister, transfer, lookup, that takes it:
    register, unregister and lookup take a non-empty input, transfer an
    input that splits on [=] into exactly two parts.  The dispatch is the
    run of that handler, and the run of the command is the one of the
    request that carries that input alone. *)
Theorem dispatch_first_applicable (cfg : Config) (op : Operation) (fuel : nat)
    (w : World (Ledger E)) :
  firstApplicable E cfg = Some op ->
  dispatch E cfg fuel w = bind (handlerOf E cfg fuel op) (fun r => ret (snd r)) w /\
  bnsHandler E cfg fuel w = bnsHandler E (only op cfg) fuel w.
Proof.
  intros Hop. split; [apply dispatch_some, Hop |].
  unfold bnsHandler. unfold_calls.
  destruct (fst (Start E (net w))); [reflexivity |].
  exec.
  destruct (fst (fst (GetBlockPeak E (snd (Start E (net w))))) =? 0)%N;
    [reflexivity |].
  rewrite (dispatch_some cfg op fuel _ Hop).
  rewrite (dispatch_some (only op cfg) op fuel _ (firstApplicable_only cfg op Hop)).
  now rewrite handlerOf_only.
Qed.

(** Before the dispatch the command fails fast: on a client that does not
    start, and on a block peak of zero. *)
Lemma bnsHandler_start_fails (cfg : Config) (fuel : nat) (w : World (Ledger E))
    (err : error) :
  fst (Start E (net w)) = Some err ->
  bnsHandler E cfg fuel w =
  Ret (Some err) (mkWorld (snd (Start E (net w))) (trace w ++ [EvStart]) (out w)).
Proof.
  intros Hstart. unfold bnsHandler. unfold_calls. exec. now rewrite Hstart.
Qed.

Lemma bnsHandler_no_block_peak (cfg : Config) (fuel : nat)
    (w : World (Ledger E)) (l1 : Ledger E) :
  Start E (net w) = (None, l1) ->
  fst (fst (GetBlockPeak E l1)) = 0%N ->
  bnsHandler E cfg fuel w =
  Ret None
    (mkWorld (snd (GetBlockPeak E l1)) (trace w ++ [EvStart; EvGetBlockPeak])
       (out w ++ [PrintError "Cannot find block peak: "
                             (Some (Errorf "not found" []))])).
Proof.
  intros Hstart Hpeak. unfold bnsHandler. unfold_calls. exec.
  rewrite Hstart. exec. rewrite Hpeak. cbn [N.eqb].
  rewrite <- app_assoc. reflexivity.
Qed.

(** C3, as the program has it.  With none of the four inputs set, once
    the client has started and the block peak was read and is not zero,
    the command prints the usage error and returns.  The start and the
    read of the block peak, which come before the dispatch, are its only
    accesses to the network: no handler makes any. *)
Theorem no_request_usage_error (cfg : Config) (fuel : nat)
    (w : World (Ledger E)) (l1 : Ledger E) :
  BNSRegister cfg = "" ->
  BNSUnregister cfg = "" ->
  BNSTransfer cfg = "" ->
  BNSLookup cfg = "" ->
  Start E (net w) = (None, l1) ->
  fst (fst (GetBlockPeak E l1)) <> 0%N ->
  bnsHandler E cfg fuel w =
  Ret None
    (mkWorld (snd (GetBlockPeak E l1)) (trace w ++ [EvStart; EvGetBlockPeak])
       (out w ++ [usageReport])).
Proof.
  intros Hr Hu Ht Hl Hstart Hpeak.
  rewrite (bnsHandler_dispatch cfg fuel w l1 Hstart Hpeak).
  rewrite dispatch_none; [reflexivity |].
  unfold firstApplicable. now rewrite Hr, Hu, Ht, Hl.
Qed.

End OrchestratorFacts.

(** The witness of C3: no input, on the simulated ledger. *)
Lemma no_request_usage_error_witness :
  bnsHandler (Sim.env Sim.addr1 false) Sim.noRequest 0 Sim.world0 =
  Ret None (mkWorld Sim.ledger0 [EvStart; EvGetBlockPeak] [usageReport]).
Proof.
  apply (no_request_usage_error (Sim.env Sim.addr1 false) Sim.noRequest 0
           Sim.world0 Sim.ledger0); try reflexivity.
  discriminate.
Defined.

(** C3, as the specification has it, fails: with no input at all the
    command reads the block peak from the network before it reports the
    usage error. *)
Lemma no_request_reads_block_peak :
  firstSupplied Sim.noRequest = None /\
  trace (worldOf (bnsHandler (Sim.env Sim.addr1 false) Sim.noRequest 0 Sim.world0))
  = [EvStart; EvGetBlockPeak] /\
  networkAccesses
    (trace (worldOf (bnsHandler (Sim.env Sim.addr1 false) Sim.noRequest 0
                       Sim.world0)))
  <> [].
Proof. repeat split. discriminate. Qed.

(** The witness of C8: a lookup alone. *)
Lemma dispatch_first_applicable_witness :
  dispatch (Sim.env Sim.addr1 false) Sim.bareTransferAndLookup 0 Sim.world0
  = bind (handleLookup (Sim.env Sim.addr1 false) Sim.bareTransferAndLookup)
      (fun r => ret (snd r)) Sim.world0 /\
  bnsHandler (Sim.env Sim.addr1 false) Sim.bareTransferAndLookup 0 Sim.world0
  = bnsHandler (Sim.env Sim.addr1 false)
      (only OpLookup Sim.bareTransferAndLookup) 0 Sim.world0.
Proof.
  apply (dispatch_first_applicable (Sim.env Sim.addr1 false)
           Sim.bareTransferAndLookup OpLookup 0 Sim.world0).
  reflexivity.
Defined.

(** C8, as the specification has it, fails: with a transfer input that
    has no [=] and a lookup input, transfer is the first input supplied,
    yet the command performs the lookup; the request that carries the
    transfer input alone gets the usage error. *)
Lemma bare_transfer_gives_way_to_lookup :
  firstSupplied Sim.bareTransferAndLookup = Some OpTransfer /\
  bnsHandler (Sim.env Sim.addr1 false) Sim.bareTransferAndLookup 0 Sim.world0
  = Ret None
      (mkWorld Sim.ledger0
         [EvStart; EvGetBlockPeak;
          EvResolveBNS "hello-world"; EvResolveBNSOwner "hello-world"]
         [PrintLabel "Lookup result: "
            (Sprintf "%s=0x%s" [FmtString "hello-world"; FmtHex Sim.addr2]);
          PrintLabel "Domain owner: " (Sprintf "0x%s" [FmtHex Sim.addr1])]) /\
  bnsHandler (Sim.env Sim.addr1 false)
    (only OpTransfer Sim.bareTransferAndLookup) 0 Sim.world0
  = Ret None (mkWorld Sim.ledger0 [EvStart; EvGetBlockPeak] [usageReport]).
Proof. repeat split. Qed.

(** ** The order of the steps *)

Section OrderFacts.

Variable E : Env.

Lemma polls_ret (A : Type) (a : A) : polls E (ret a).
Proof. intros w. exists []. split; [symmetry; apply app_nil_r | reflexivity]. Qed.

Lemma polls_print (o : Output) : polls E (print o).
Proof. intros w. exists []. split; [symmetry; apply app_nil_r | reflexivity]. Qed.

Lemma polls_call (A : Type) (ev : Event) (f : Ledger E -> A * Ledger E) :
  isPoll ev = true -> polls E (call ev f).
Proof. intros Hev w. exists [ev]. split; [reflexivity | cbn; now rewrite Hev]. Qed.

Lemma polls_bind (A B : Type) (m : Prog E A) (k : A -> Prog E B) :
  polls E m -> (forall a, polls E (k a)) -> polls E (bind m k).
Proof.
  intros Hm Hk w. destruct (Hm w) as [t1 [Ht1 Hp1]]. unfold bind.
  destruct (m w) as [a w1 | w1]; cbn [worldOf] in *.
  - destruct (Hk a w1) as [t2 [Ht2 Hp2]].
    exists (t1 ++ t2). split.
    + now rewrite Ht2, Ht1, app_assoc.
    + now rewrite forallb_app, Hp1, Hp2.
  - exists t1. now split.
Qed.

Lemma polls_awaitHeight (fuel : nat) (bn : N) : polls E (awaitHeight E fuel bn).
Proof.
  induction fuel as [| fuel IH].
  - intros w. exists []. split; [symmetry; apply app_nil_r | reflexivity].
  - cbn [awaitHeight]. apply polls_bind; [now apply polls_call |].
    intros bn2. destruct (negb (bn =? bn2)%N); [apply polls_ret |].
    apply polls_bind; [now apply polls_call | intros _; exact IH].
Qed.

Lemma polls_waitLoop (fuel : nat) (condition : Prog E bool) (budget : nat) :
  polls E condition -> polls E (waitLoop E fuel condition budget).
Proof.
  intros Hc. induction budget as [| budget IH].
  - apply polls_print.
  - rewrite waitLoop_S. apply polls_bind; [now apply polls_call |].
    intros bn. apply polls_bind; [exact Hc |].
    intros [|]; [apply polls_print |].
    apply polls_bind; [apply polls_awaitHeight | intros _; exact IH].
Qed.

Lemma polls_wait (fuel : nat) (condition : Prog E bool) :
  polls E condition -> polls E (wait E fuel condition).
Proof.
  intros Hc. unfold wait.
  apply polls_bind; [apply polls_print | intros _; now apply polls_waitLoop].
Qed.

Lemma polls_ordered (t : list Event) :
  forallb isPoll t = true -> ordered 6 t = true.
Proof.
  induction t as [| ev t IH]; [reflexivity |].
  cbn [forallb]. rewrite andb_true_iff. intros [Hev Ht].
  destruct ev; try discriminate Hev; cbn [ordered]; now apply IH.
Qed.

End OrderFacts.

Section StepFacts.

Variable E : Env.
Variable cfg : Config.

(** The last stretch of a mutation: the steps so far are in order up to
    the submission, and what follows only polls. *)
Lemma stepsOrdered_polls (A B : Type) (w w1 : World (Ledger E))
    (steps : list Event) (m : Prog E A) (b : B) :
  polls E m ->
  trace w1 = trace w ++ steps ->
  (forall t, forallb isPoll t = true -> ordered 0 (steps ++ t) = true) ->
  stepsOrdered w (bind m (fun _ => ret b) w1).
Proof.
  intros Hm Hw1 Hsteps. destruct (Hm w1) as [t [Ht Hp]].
  exists (steps ++ t). split; [| now apply Hsteps].
  unfold bind. destruct (m w1) as [a w2 | w2]; cbn [worldOf ret] in *;
    now rewrite Ht, Hw1, app_assoc.
Qed.

Lemma polls_resolveBNS (name : string) (f : Address * option error -> bool) :
  polls E (bind (resolveBNS E name) (fun c => ret (f c))).
Proof.
  apply polls_bind; [now apply polls_call | intros c; apply polls_ret].
Qed.

Lemma polls_resolveBNSOwner (name : string) (f : Address * option error -> bool) :
  polls E (bind (resolveBNSOwner E name) (fun c => ret (f c))).
Proof.
  apply polls_bind; [now apply polls_call | intros c; apply polls_ret].
Qed.

Ltac steps_done :=
  unfold stepsOrdered; unfold_calls; exec; eexists;
  (split;
   [ rewrite <- ?app_assoc; cbn [app];
     first [reflexivity | symmetry; apply app_nil_r]
   | reflexivity ]).

Ltac steps_wait polls_condition :=
  eapply stepsOrdered_polls;
  [ apply polls_wait, polls_condition
  | exec; rewrite <- !app_assoc; cbn [app]; reflexivity
  | intros t Ht; cbn [app ordered]; now apply polls_ordered ].

Lemma handleRegister_ordered (fuel : nat) (w : World (Ledger E)) :
  stepsOrdered w (handleRegister E cfg fuel w).
Proof.
  unfold handleRegister.
  destruct (String.length (BNSRegister cfg) =? 0)%nat; [steps_done |].
  destruct (snd (NewBNSContract E)); [steps_done |].
  unfold bind at 1, validate, step, call. exec.
  destruct (isValidBNS _); cbn [negb]; [| steps_done].
  unfold bind at 1, getAccountNonce, call. exec.
  destruct (1 <? List.length (GoStrings.Split (BNSRegister cfg) "="))%nat.
  - unfold bind at 1, decodeAddress, step, call. exec.
    destruct (snd (DecodeAddress E _)); [steps_done |].
    unfold bind at 1, resolveBNS at 1, call. exec.
    destruct (isNil _ && Address_eqb _ _); [steps_done |].
    unfold bind at 1, newTransaction, step, call. exec.
    unfold bind at 1, sendTransaction, call. exec.
    destruct (snd (fst (SendTransaction E _ _))); [steps_done |].
    destruct (fst (fst (SendTransaction E _ _))); cbn [negb]; [| steps_done].
    unfold bind at 1, printLabel, print. exec.
    steps_wait polls_resolveBNS.
  - unfold bind at 1, ret at 1. exec.
    unfold bind at 1, resolveBNS at 1, call. exec.
    destruct (isNil _ && Address_eqb _ _); [steps_done |].
    unfold bind at 1, newTransaction, step, call. exec.
    unfold bind at 1, sendTransaction, call. exec.
    destruct (snd (fst (SendTransaction E _ _))); [steps_done |].
    destruct (fst (fst (SendTransaction E _ _))); cbn [negb]; [| steps_done].
    unfold bind at 1, printLabel, print. exec.
    steps_wait polls_resolveBNS.
Qed.

Lemma handleTransfer_ordered (fuel : nat) (w : World (Ledger E)) :
  stepsOrdered w (handleTransfer E cfg fuel w).
Proof.
  unfold handleTransfer.
  destruct (List.length (GoStrings.Split (BNSTransfer cfg) "=") =? 2)%nat;
    cbn [negb]; [| steps_done].
  destruct (snd (NewBNSContract E)); [steps_done |].
  unfold bind at 1, validate, step, call. exec.
  destruct (isValidBNS _); cbn [negb]; [| steps_done].
  unfold bind at 1, getAccountNonce, call. exec.
  unfold bind at 1, decodeAddress, step, call. exec.
  destruct (snd (DecodeAddress E _)); [steps_done |].
  unfold bind at 1, resolveBNSOwner at 1, call. exec.
  destruct (isNil _ && Address_eqb _ _); [steps_done |].
  destruct (isNil _ && negb (Address_eqb _ _)); [steps_done |].
  unfold bind at 1, newTransaction, step, call. exec.
  unfold bind at 1, sendTransaction, call. exec.
  destruct (snd (fst (SendTransaction E _ _))); cbn [isNil andb]; [steps_done |].
  destruct (fst (fst (SendTransaction E _ _))); cbn [negb]; [| steps_done].
  unfold bind at 1, printLabel, print. exec.
  steps_wait polls_resolveBNSOwner.
Qed.

Lemma handleUnregister_ordered (fuel : nat) (w : World (Ledger E)) :
  stepsOrdered w (handleUnregister E cfg fuel w).
Proof.
  unfold handleUnregister.
  destruct (String.length (BNSUnregister cfg) =? 0)%nat; [steps_done |].
  destruct (snd (NewBNSContract E)); [steps_done |].
  unfold bind at 1, validate, step, call. exec.
  destruct (isValidBNS _); cbn [negb]; [| steps_done].
  unfold bind at 1, getAccountNonce, call. exec.
  unfold bind at 1, resolveBNSOwner at 1, call. exec.
  destruct (Address_eqb _ zeroAddress); [steps_done |].
  destruct (negb (Address_eqb _ _)); [steps_done |].
  unfold bind at 1, newTransaction, step, call. exec.
  unfold bind at 1, sendTransaction, call. exec.
  destruct (snd (fst (SendTransaction E _ _))); cbn [isNil andb]; [steps_done |].
  destruct (fst (fst (SendTransaction E _ _))); cbn [negb]; [| steps_done].
  unfold bind at 1, printLabel, print. exec.
  steps_wait polls_resolveBNSOwner.
Qed.

End StepFacts.

Section RejectionFacts.

Variable E : Env.
Variable cfg : Config.

Lemma register_invalid_name (fuel : nat) (w : World (Ledger E))
    (name : string) (rest : list string) :
  BNSRegister cfg <> "" ->
  GoStrings.Split (BNSRegister cfg) "=" = name :: rest ->
  snd (NewBNSContract E) = None ->
  isValidBNS (ToLower E name) = false ->
  rejectedAfter [EvValidate (ToLower E name)] None w
    (handleRegister E cfg fuel w).
Proof.
  intros Hinput Hsplit Hcontract Hvalid. unfold handleRegister.
  destruct (BNSRegister cfg) as [| c s] eqn:Hreg; [contradiction |].
  cbn [String.length Nat.eqb]. rewrite Hsplit, Hcontract.
  unfold_calls. exec. rewrite Hvalid. exec.
  eexists. split; reflexivity.
Qed.

Lemma transfer_invalid_name (fuel : nat) (w : World (Ledger E))
    (name text : string) :
  GoStrings.Split (BNSTransfer cfg) "=" = [name; text] ->
  snd (NewBNSContract E) = None ->
  isValidBNS (ToLower E name) = false ->
  rejectedAfter [EvValidate (ToLower E name)] None w
    (handleTransfer E cfg fuel w).
Proof.
  intros Hsplit Hcontract Hvalid. unfold handleTransfer.
  rewrite Hsplit, Hcontract. cbn [List.length Nat.eqb negb].
  unfold_calls. exec. rewrite Hvalid. exec.
  eexists. split; reflexivity.
Qed.

Lemma unregister_invalid_name (fuel : nat) (w : World (Ledger E)) :
  BNSUnregister cfg <> "" ->
  snd (NewBNSContract E) = None ->
  isValidBNS (ToLower E (BNSUnregister cfg)) = false ->
  rejectedAfter [EvValidate (ToLower E (BNSUnregister cfg))] None w
    (handleUnregister E cfg fuel w).
Proof.
  intros Hinput Hcontract Hvalid. unfold handleUnregister.
  destruct (BNSUnregister cfg) as [| c s] eqn:Hreg; [contradiction |].
  cbn [String.length Nat.eqb]. rewrite Hcontract.
  unfold_calls. exec. rewrite Hvalid. exec.
  eexists. split; reflexivity.
Qed.

Lemma register_malformed_address (fuel : nat) (w : World (Ledger E))
    (name text : string) (rest : list string) (err : error) :
  GoStrings.Split (BNSRegister cfg) "=" = name :: text :: rest ->
  snd (NewBNSContract E) = None ->
  isValidBNS (ToLower E name) = true ->
  snd (DecodeAddress E text) = Some err ->
  rejectedAfter [EvValidate (ToLower E name);
                 EvGetAccountNonce 0 (ClientAddr cfg);
                 EvDecodeAddress text] (Some err) w
    (handleRegister E cfg fuel w).
Proof.
  intros Hsplit Hcontract Hvalid Hdecode. unfold handleRegister.
  rewrite (Split_nonempty_input _ _ _ _ Hsplit), Hsplit, Hcontract.
  cbn [List.length Nat.ltb Nat.leb]. unfold_calls.
  exec. rewrite Hvalid. exec. rewrite Hdecode. exec.
  eexists. split; [reflexivity |]. exec.
  rewrite <- !app_assoc. reflexivity.
Qed.

Lemma transfer_malformed_address (fuel : nat) (w : World (Ledger E))
    (name text : string) (err : error) :
  GoStrings.Split (BNSTransfer cfg) "=" = [name; text] ->
  snd (NewBNSContract E) = None ->
  isValidBNS (ToLower E name) = true ->
  snd (DecodeAddress E text) = Some err ->
  rejectedAfter [EvValidate (ToLower E name);
                 EvGetAccountNonce 0 (ClientAddr cfg);
                 EvDecodeAddress text] (Some err) w
    (handleTransfer E cfg fuel w).
Proof.
  intros Hsplit Hcontract Hvalid Hdecode. unfold handleTransfer.
  rewrite Hsplit, Hcontract. cbn [List.length Nat.eqb negb]. unfold_calls.
  exec. rewrite Hvalid. exec. rewrite Hdecode. exec.
  eexists. split; [reflexivity |]. exec.
  rewrite <- !app_assoc. reflexivity.
Qed.

(** C7, as the program has it.  In every register, unregister and
    transfer call the steps come in one order: the name is validated
    before anything else, the account nonce is read, a supplied address
    is decoded after that read, the name is resolved, the transaction is
    constructed, it is submitted at once and only once, and only the
    confirmation polling follows.  So a name that fails validation is
    rejected with no access to the network, and a malformed address in a
    register or transfer request is rejected after one access to the
    network, the read of the nonce, with no resolution and no
    submission. *)
Theorem mutation_steps_in_order (fuel : nat) (w : World (Ledger E)) :
  (stepsOrdered w (handleRegister E cfg fuel w) /\
   stepsOrdered w (handleUnregister E cfg fuel w) /\
   stepsOrdered w (handleTransfer E cfg fuel w)) /\
  (snd (NewBNSContract E) = None ->
   (forall name rest,
      BNSRegister cfg <> "" ->
      GoStrings.Split (BNSRegister cfg) "=" = name :: rest ->
      isValidBNS (ToLower E name) = false ->
      rejectedAfter [EvValidate (ToLower E name)] None w
        (handleRegister E cfg fuel w)) /\
   (BNSUnregister cfg <> "" ->
    isValidBNS (ToLower E (BNSUnregister cfg)) = false ->
    rejectedAfter [EvValidate (ToLower E (BNSUnregister cfg))] None w
      (handleUnregister E cfg fuel w)) /\
   (forall name text,
      GoStrings.Split (BNSTransfer cfg) "=" = [name; text] ->
      isValidBNS (ToLower E name) = false ->
      rejectedAfter [EvValidate (ToLower E name)] None w
        (handleTransfer E cfg fuel w)) /\
   (forall name text rest err,
      GoStrings.Split (BNSRegister cfg) "=" = name :: text :: rest ->
      isValidBNS (ToLower E name) = true ->
      snd (DecodeAddress E text) = Some err ->
      rejectedAfter [EvValidate (ToLower E name);
                     EvGetAccountNonce 0 (ClientAddr cfg);
                     EvDecodeAddress text] (Some err) w
        (handleRegister E cfg fuel w)) /\
   (forall name text err,
      GoStrings.Split (BNSTransfer cfg) "=" = [name; text] ->
      isValidBNS (ToLower E name) = true ->
      snd (DecodeAddress E text) = Some err ->
      rejectedAfter [EvValidate (ToLower E name);
                     EvGetAccountNonce 0 (ClientAddr cfg);
                     EvDecodeAddress text] (Some err) w
        (handleTransfer E cfg fuel w))).
Proof.
  split.
  - split; [apply handleRegister_ordered |].
    split; [apply handleUnregister_ordered | apply handleTransfer_ordered].
  - intros Hcontract. repeat split.
    + intros name rest Hin Hsplit Hvalid.
      now apply register_invalid_name with (rest := rest).
    + intros Hin Hvalid. now apply unregister_invalid_name.
    + intros name text Hsplit Hvalid.
      now apply transfer_invalid_name with (text := text).
    + intros name text rest err Hsplit Hvalid Hdecode.
      now apply register_malformed_address with (rest := rest).
    + intros name text err Hsplit Hvalid Hdecode.
      now apply transfer_malformed_address.
Qed.

End RejectionFacts.

(** C7, as the specification has it, fails: a request to register
    [hello-world] with a malformed address is rejected after the account
    nonce was read from the network, and that read comes before the
    address is decoded. *)
Lemma malformed_address_after_nonce_read :
  handleRegister (Sim.env Sim.addr1 false) Sim.registerBadAddress 0 Sim.world0
  = Ret (true, Some (CollaboratorError "not a hex string"))
      (mkWorld Sim.ledger0
         [EvValidate "hello-world"; EvGetAccountNonce 0 Sim.addr1;
          EvDecodeAddress "xyz"]
         [PrintError "Invalid diode address"
                     (Some (CollaboratorError "not a hex string"))]) /\
  networkAccesses
    (trace (worldOf (handleRegister (Sim.env Sim.addr1 false)
                       Sim.registerBadAddress 0 Sim.world0)))
  = [EvGetAccountNonce 0 Sim.addr1].
Proof. split; reflexivity. Qed.

(** ** Lower-casing *)

Module CaseFacts.
Import GoStrings.









Lemma Split_no_separator (name : string) :
  separators name = 0 -> Split name "=" = [name].
Proof.
  unfold separators. induction name as [| c n IH]; cbn; [reflexivity |].
  destruct (Ascii.eqb c "="); [discriminate |].
  intros H. now rewrite IH.
Qed.

Lemma Split_name (name t : string) :
  separators name = 0 ->
  Split (name ++ String "=" t) "=" = name :: Split t "=".
Proof.
  unfold separators. induction name as [| c n IH]; cbn; [reflexivity |].
  destruct (Ascii.eqb c "="); [discriminate |].
  intros H. now rewrite IH.
Qed.

End CaseFacts.

(** ** What a run adds to the trace *)

Section AddsFacts.

Variable E : Env.
Variable p : Event -> bool.





Hypothesis Hpoll : p EvLastValid = true.
Hypothesis Hsleep : forall ms, p (EvSleep ms) = true.




End AddsFacts.


Section NameUseFacts.

Variable E : Env.
Variable cfg : Config.





End NameUseFacts.

Section LowerCaseFacts.

Variable E : Env.
Variable name : string.
Hypothesis Hname : lowerCaseStable E name.






End LowerCaseFacts.

(** A library whose Unicode path is stable for every string is stable
    for each name. *)
Lemma unicodeLowerCase_stable (E : Env) (name : string) :
  unicodeLowerCase E -> lowerCaseStable E name.
Proof.
  intros H. unfold lowerCaseStable.
  destruct (GoStrings.forallb GoStrings.isASCII name) eqn:Hs;
    [now left | right; exact (H name Hs)].
Qed.

Section LowerCaseRuns.

Variable E : Env.
Variable cfg : Config.
Variable name : string.
Hypothesis Hname : lowerCaseStable E name.







Hypothesis Hcontract : snd (NewBNSContract E) = None.
Hypothesis Hvalid : isValidBNS (ToLower E name) = true.






End LowerCaseRuns.

Section LowerCaseLookup.

Variable E : Env.
Variable cfg : Config.


End LowerCaseLookup.

Section LowerCaseClaim.

Variable E : Env.
Variable cfg : Config.


End LowerCaseClaim.


(** A name with upper-case letters whose lower-case form is valid is
    taken and processed as that form. *)
Example register_upper_case_name :
  handleRegister (Sim.env Sim.addr1 false)
    (setRegister ("Hello-World" ++ String "=" Sim.text2) Sim.noRequest)
    0 Sim.world0
  = Ret (true, None)
      (mkWorld Sim.ledger0
         [EvValidate "hello-world"; EvGetAccountNonce 0 Sim.addr1;
          EvDecodeAddress Sim.text2; EvResolveBNS "hello-world"]
         [alreadyMapped]).
Proof. reflexivity. Qed.

(** A name of six characters is turned down before the network is
    touched. *)
Example register_short_name :
  handleRegister (Sim.env Sim.addr1 false)
    (setRegister ("shortn" ++ String "=" Sim.text1) Sim.noRequest)
    0 Sim.world0
  = Ret (true, None)
      (mkWorld Sim.ledger0 [EvValidate "shortn"]
         [PrintError "Argument Error: " (Some nameSyntaxError)]).
Proof. reflexivity. Qed.

(** * Further properties *)

(** ** The shape of a mutation's run *)

Lemma polls_submissions (t : list Event) :
  forallb isPoll t = true -> submissions t = 0.
Proof.
  unfold submissions. induction t as [| ev t IH]; [reflexivity |].
  cbn [forallb]. rewrite andb_true_iff. intros [Hev Ht].
  destruct ev; try discriminate Hev; cbn; now apply IH.
Qed.

Section ShapeFacts.

Variable E : Env.
Variable cfg : Config.

Lemma submittedOnce_polls (A B : Type) (w w1 : World (Ledger E))
    (tx : Transaction) (pre : list Event) (m : Prog E A) (b : B) :
  polls E m ->
  trace w1 = trace w ++ pre ++ [EvNewTransaction tx; EvSendTransaction tx] ->
  submissions pre = 0 ->
  tx = NewTransaction (fst (GetAccountNonce E 0 (ClientAddr cfg) (net w)))
         0 10000000 (BNSAddr E) 0 (txData tx) 0 ->
  submittedOnce E cfg w (bind m (fun _ => ret b) w1).
Proof.
  intros Hm Hw1 Hpre Htx. destruct (Hm w1) as [t [Ht Hp]].
  exists tx, pre, t. repeat split; try assumption.
  unfold bind. destruct (m w1) as [a w2 | w2]; cbn [worldOf ret] in *;
    rewrite Ht, Hw1, <- !app_assoc; reflexivity.
Qed.

Ltac shape_returned :=
  unfold mutationShape; left; unfold returnedUnsubmitted; unfold_calls; exec;
  do 3 eexists;
  (split; [reflexivity |]);
  (split;
   [ rewrite <- ?app_assoc; cbn [app];
     first [reflexivity | symmetry; apply app_nil_r]
   | reflexivity ]).

Tactic Notation "shape_submitted" open_constr(pre) :=
  unfold mutationShape; right; unfold submittedOnce; unfold_calls; exec;
  eexists; exists pre; exists [];
  (split; [rewrite <- ?app_assoc; cbn [app]; reflexivity |]);
  repeat split.

Tactic Notation "shape_wait" open_constr(steps) constr(polls_condition) :=
  unfold mutationShape; right; eapply submittedOnce_polls with (pre := steps);
  [ apply polls_wait, polls_condition
  | exec; rewrite <- !app_assoc; cbn [app]; reflexivity
  | reflexivity
  | reflexivity ].

Lemma handleRegister_shape (fuel : nat) (w : World (Ledger E)) :
  mutationShape E cfg w (handleRegister E cfg fuel w).
Proof.
  unfold handleRegister.
  destruct (String.length (BNSRegister cfg) =? 0)%nat; [shape_returned |].
  destruct (snd (NewBNSContract E)); [shape_returned |].
  unfold bind at 1, validate, step, call. exec.
  destruct (isValidBNS _); cbn [negb]; [| shape_returned].
  unfold bind at 1, getAccountNonce, call. exec.
  destruct (1 <? List.length (GoStrings.Split (BNSRegister cfg) "="))%nat.
  - unfold bind at 1, decodeAddress, step, call. exec.
    destruct (snd (DecodeAddress E _)); [shape_returned |].
    unfold bind at 1, resolveBNS at 1, call. exec.
    destruct (isNil _ && Address_eqb _ _); [shape_returned |].
    unfold bind at 1, newTransaction, step, call. exec.
    unfold bind at 1, sendTransaction, call. exec.
    destruct (snd (fst (SendTransaction E _ _)));
      [shape_submitted [_; _; _; _] |].
    destruct (fst (fst (SendTransaction E _ _))); cbn [negb];
      [| shape_submitted [_; _; _; _]].
    unfold bind at 1, printLabel, print. exec.
    shape_wait [_; _; _; _] (polls_resolveBNS E).
  - unfold bind at 1, ret at 1. exec.
    unfold bind at 1, resolveBNS at 1, call. exec.
    destruct (isNil _ && Address_eqb _ _); [shape_returned |].
    unfold bind at 1, newTransaction, step, call. exec.
    unfold bind at 1, sendTransaction, call. exec.
    destruct (snd (fst (SendTransaction E _ _)));
      [shape_submitted [_; _; _] |].
    destruct (fst (fst (SendTransaction E _ _))); cbn [negb];
      [| shape_submitted [_; _; _]].
    unfold bind at 1, printLabel, print. exec.
    shape_wait [_; _; _] (polls_resolveBNS E).
Qed.

Lemma handleTransfer_shape (fuel : nat) (w : World (Ledger E)) :
  mutationShape E cfg w (handleTransfer E cfg fuel w).
Proof.
  unfold handleTransfer.
  destruct (List.length (GoStrings.Split (BNSTransfer cfg) "=") =? 2)%nat;
    cbn [negb]; [| shape_returned].
  destruct (snd (NewBNSContract E)); [shape_returned |].
  unfold bind at 1, validate, step, call. exec.
  destruct (isValidBNS _); cbn [negb]; [| shape_returned].
  unfold bind at 1, getAccountNonce, call. exec.
  unfold bind at 1, decodeAddress, step, call. exec.
  destruct (snd (DecodeAddress E _)); [shape_returned |].
  unfold bind at 1, resolveBNSOwner at 1, call. exec.
  destruct (isNil _ && Address_eqb _ _); [shape_returned |].
  destruct (isNil _ && negb (Address_eqb _ _)); [shape_returned |].
  unfold bind at 1, newTransaction, step, call. exec.
  unfold bind at 1, sendTransaction, call. exec.
  destruct (snd (fst (SendTransaction E _ _))); cbn [isNil andb];
    [shape_submitted [_; _; _; _] |].
  destruct (fst (fst (SendTransaction E _ _))); cbn [negb];
    [| shape_submitted [_; _; _; _]].
  unfold bind at 1, printLabel, print. exec.
  shape_wait [_; _; _; _] (polls_resolveBNSOwner E).
Qed.

Lemma handleUnregister_shape (fuel : nat) (w : World (Ledger E)) :
  mutationShape E cfg w (handleUnregister E cfg fuel w).
Proof.
  unfold handleUnregister.
  destruct (String.length (BNSUnregister cfg) =? 0)%nat; [shape_returned |].
  destruct (snd (NewBNSContract E)); [shape_returned |].
  unfold bind at 1, validate, step, call. exec.
  destruct (isValidBNS _); cbn [negb]; [| shape_returned].
  unfold bind at 1, getAccountNonce, call. exec.
  unfold bind at 1, resolveBNSOwner at 1, call. exec.
  destruct (Address_eqb _ zeroAddress); [shape_returned |].
  destruct (negb (Address_eqb _ _)); [shape_returned |].
  unfold bind at 1, newTransaction, step, call. exec.
  unfold bind at 1, sendTransaction, call. exec.
  destruct (snd (fst (SendTransaction E _ _))); cbn [isNil andb];
    [shape_submitted [_; _; _] |].
  destruct (fst (fst (SendTransaction E _ _))); cbn [negb];
    [| shape_submitted [_; _; _]].
  unfold bind at 1, printLabel, print. exec.
  shape_wait [_; _; _] (polls_resolveBNSOwner E).
Qed.

(** X1.  Every run of a register, unregister or transfer call, whatever
    the request, the ledger and the fuel, has one of two shapes.  Either
    it returned without submitting anything; or it submitted exactly one
    transaction, the one it had just constructed from the nonce read at
    the start of this call, with 10000000 of gas, the BNS contract as
    destination and a price, value and chain id of 0, and has only
    polled since.  So a call never submits twice, and a call that does
    not return is one that has submitted. *)
Theorem mutation_run_shape (fuel : nat) (w : World (Ledger E)) :
  mutationShape E cfg w (handleRegister E cfg fuel w) /\
  mutationShape E cfg w (handleUnregister E cfg fuel w) /\
  mutationShape E cfg w (handleTransfer E cfg fuel w).
Proof.
  split; [apply handleRegister_shape |].
  split; [apply handleUnregister_shape | apply handleTransfer_shape].
Qed.

Lemma mutationShape_submissions (A : Type) (w : World (Ledger E))
    (r : Run (Ledger E) A) :
  mutationShape E cfg w r ->
  submissions (trace (worldOf r)) <= submissions (trace w) + 1 /\
  (forall w', r = Hang w' -> submissions (trace w') = submissions (trace w) + 1).
Proof.
  intros [[a [w' [t [-> [Ht Hs]]]]] | [tx [pre [post [Ht [Hpre [Hpost _]]]]]]].
  - cbn [worldOf]. rewrite Ht, submissions_app, Hs.
    split; [lia | intros w2 H; discriminate H].
  - assert (Hcount : submissions (trace (worldOf r)) = submissions (trace w) + 1).
    { rewrite Ht, !submissions_app.
      change (EvNewTransaction tx :: EvSendTransaction tx :: post)
        with ([EvNewTransaction tx; EvSendTransaction tx] ++ post).
      rewrite submissions_app, Hpre, (polls_submissions post Hpost).
      reflexivity. }
    split; [lia |]. intros w' ->. exact Hcount.
Qed.

(** X2.  A register, unregister or transfer call adds at most one
    submission to the trace, and a call that does not return (its
    confirmation wait is still polling) has added exactly one. *)
Theorem at_most_one_submission (fuel : nat) (w : World (Ledger E))
    (r : Run (Ledger E) (bool * option error)) :
  r = handleRegister E cfg fuel w \/
  r = handleUnregister E cfg fuel w \/
  r = handleTransfer E cfg fuel w ->
  submissions (trace (worldOf r)) <= submissions (trace w) + 1 /\
  (forall w', r = Hang w' -> submissions (trace w') = submissions (trace w) + 1).
Proof.
  intros [-> | [-> | ->]]; apply mutationShape_submissions;
    [apply handleRegister_shape | apply handleUnregister_shape
    | apply handleTransfer_shape].
Qed.

End ShapeFacts.

(** ** What decides a submission *)

Section DecisionFacts.

Variable E : Env.
Variable cfg : Config.

Lemma submissions_after_polls (A B : Type) (m : Prog E A) (b : B)
    (w1 : World (Ledger E)) :
  polls E m ->
  submissions (trace (worldOf (bind m (fun _ => ret b) w1)))
  = submissions (trace w1).
Proof.
  intros Hm. destruct (Hm w1) as [t [Ht Hp]]. unfold bind.
  destruct (m w1) as [a w2 | w2]; cbn [worldOf ret] in *;
    rewrite Ht, submissions_app, (polls_submissions t Hp); lia.
Qed.

Ltac count_submissions :=
  unfold_calls; exec; rewrite ?submissions_app; cbn; lia.

Ltac count_after_wait polls_condition :=
  rewrite submissions_after_polls by (apply polls_wait, polls_condition);
  exec; rewrite ?submissions_app; cbn; lia.

(** X3.  A register request [name=addr] with a valid name and a
    well-formed address is submitted, once, unless the name resolves
    without an error to [addr]: a name that does not resolve, or that
    resolves to another address, is registered. *)
Theorem register_submits_unless_bound (fuel : nat) (w : World (Ledger E))
    (name text : string) (rest : list string) (addr : Address) :
  GoStrings.Split (BNSRegister cfg) "=" = name :: text :: rest ->
  snd (NewBNSContract E) = None ->
  isValidBNS (ToLower E name) = true ->
  DecodeAddress E text = (addr, None) ->
  submissions (trace (worldOf (handleRegister E cfg fuel w)))
  = submissions (trace w)
    + (if isNil (snd (fst (ResolveBNS E (ToLower E name)
                             (snd (GetAccountNonce E 0 (ClientAddr cfg) (net w))))))
          && Address_eqb
               (fst (fst (ResolveBNS E (ToLower E name)
                            (snd (GetAccountNonce E 0 (ClientAddr cfg) (net w))))))
               addr
       then 0 else 1).
Proof.
  intros Hsplit Hcontract Hvalid Hdecode.
  unfold handleRegister.
  rewrite (Split_nonempty_input _ _ _ _ Hsplit), Hsplit, Hcontract.
  cbn [List.length Nat.ltb Nat.leb].
  unfold bind at 1, validate, step, call. exec. rewrite Hvalid. cbn [negb].
  unfold bind at 1, getAccountNonce, call. exec.
  unfold bind at 1, decodeAddress, step, call. exec. rewrite Hdecode. exec.
  unfold bind at 1, resolveBNS at 1, call. exec.
  destruct (isNil _ && Address_eqb _ _); [count_submissions |].
  unfold bind at 1, newTransaction, step, call. exec.
  unfold bind at 1, sendTransaction, call. exec.
  destruct (snd (fst (SendTransaction E _ _))); [count_submissions |].
  destruct (fst (fst (SendTransaction E _ _))); cbn [negb]; [| count_submissions].
  unfold bind at 1, printLabel, print. exec.
  count_after_wait (polls_resolveBNS E).
Qed.

(** X4.  A transfer request [name=newOwner] with a valid name and a
    well-formed address is submitted, once, unless the owner of the name
    resolves without an error and is the new owner or is not the caller.
    When the owner cannot be resolved the transfer is submitted without
    any check of the ownership. *)
Theorem transfer_submits_unless_refused (fuel : nat) (w : World (Ledger E))
    (name text : string) (newOwner : Address) :
  GoStrings.Split (BNSTransfer cfg) "=" = [name; text] ->
  snd (NewBNSContract E) = None ->
  isValidBNS (ToLower E name) = true ->
  DecodeAddress E text = (newOwner, None) ->
  submissions (trace (worldOf (handleTransfer E cfg fuel w)))
  = submissions (trace w)
    + (if isNil (snd (fst (ResolveBNSOwner E (ToLower E name)
                             (snd (GetAccountNonce E 0 (ClientAddr cfg) (net w))))))
          && (Address_eqb
                (fst (fst (ResolveBNSOwner E (ToLower E name)
                             (snd (GetAccountNonce E 0 (ClientAddr cfg) (net w))))))
                newOwner
              || negb (Address_eqb
                         (fst (fst (ResolveBNSOwner E (ToLower E name)
                                      (snd (GetAccountNonce E 0 (ClientAddr cfg)
                                              (net w))))))
                         (clientAddr E)))
       then 0 else 1).
Proof.
  intros Hsplit Hcontract Hvalid Hdecode.
  unfold handleTransfer.
  rewrite Hsplit, Hcontract. cbn [List.length Nat.eqb negb].
  unfold bind at 1, validate, step, call. exec. rewrite Hvalid. cbn [negb].
  unfold bind at 1, getAccountNonce, call. exec.
  unfold bind at 1, decodeAddress, step, call. exec. rewrite Hdecode. exec.
  unfold bind at 1, resolveBNSOwner at 1, call. exec.
  destruct (isNil _); cbn [andb];
    [destruct (Address_eqb _ newOwner); cbn [orb];
       [count_submissions
       | destruct (Address_eqb _ (clientAddr E)); cbn [negb];
           [| count_submissions]]
    |].
  all: unfold bind at 1, newTransaction, step, call; exec;
    unfold bind at 1, sendTransaction, call; exec;
    (destruct (snd (fst (SendTransaction E _ _))); cbn [isNil andb];
     [count_submissions |]);
    (destruct (fst (fst (SendTransaction E _ _))); cbn [negb];
     [| count_submissions]);
    unfold bind at 1, printLabel, print; exec;
    count_after_wait (polls_resolveBNSOwner E).
Qed.

(** X5.  An unregister request with a valid name is submitted, once,
    exactly when the address the owner lookup hands back is the caller's
    and is not the all-zero address; the error of the lookup is not
    looked at. *)
Theorem unregister_submits_iff_owner (fuel : nat) (w : World (Ledger E)) :
  snd (NewBNSContract E) = None ->
  isValidBNS (ToLower E (BNSUnregister cfg)) = true ->
  submissions (trace (worldOf (handleUnregister E cfg fuel w)))
  = submissions (trace w)
    + (if negb (Address_eqb
                  (fst (fst (ResolveBNSOwner E (ToLower E (BNSUnregister cfg))
                               (snd (GetAccountNonce E 0 (ClientAddr cfg)
                                       (net w))))))
                  zeroAddress)
          && Address_eqb
               (fst (fst (ResolveBNSOwner E (ToLower E (BNSUnregister cfg))
                            (snd (GetAccountNonce E 0 (ClientAddr cfg) (net w))))))
               (clientAddr E)
       then 1 else 0).
Proof.
  intros Hcontract Hvalid.
  unfold handleUnregister.
  rewrite (valid_nonempty_input _ _ Hvalid), Hcontract.
  unfold bind at 1, validate, step, call. exec. rewrite Hvalid. cbn [negb].
  unfold bind at 1, getAccountNonce, call. exec.
  unfold bind at 1, resolveBNSOwner at 1, call. exec.
  destruct (Address_eqb _ zeroAddress); cbn [negb andb]; [count_submissions |].
  destruct (Address_eqb _ (clientAddr E)); cbn [negb]; [| count_submissions].
  unfold bind at 1, newTransaction, step, call. exec.
  unfold bind at 1, sendTransaction, call. exec.
  destruct (snd (fst (SendTransaction E _ _))); cbn [isNil andb];
    [count_submissions |].
  destruct (fst (fst (SendTransaction E _ _))); cbn [negb]; [| count_submissions].
  unfold bind at 1, printLabel, print. exec.
  count_after_wait (polls_resolveBNSOwner E).
Qed.

End DecisionFacts.

(** ** The answer of the node *)

Section SubmissionFacts.

Variable E : Env.
Variable cfg : Config.

(** X6.  When the node answers a register submission with [false] and no
    error, [handleRegister] prints that the server returned false but
    returns no error, and does not wait for a confirmation. *)
Theorem register_refused_returns_no_error (fuel : nat) (w : World (Ledger E))
    (name text : string) (rest : list string) (addr bound : Address)
    (failed : option error) (l2 l3 : Ledger E) :
  GoStrings.Split (BNSRegister cfg) "=" = name :: text :: rest ->
  snd (NewBNSContract E) = None ->
  isValidBNS (ToLower E name) = true ->
  DecodeAddress E text = (addr, None) ->
  ResolveBNS E (ToLower E name)
    (snd (GetAccountNonce E 0 (ClientAddr cfg) (net w))) = ((bound, failed), l2) ->
  isNil failed && Address_eqb bound addr = false ->
  SendTransaction E
    (NewTransaction (fst (GetAccountNonce E 0 (ClientAddr cfg) (net w)))
       0 10000000 (BNSAddr E) 0
       (fst (Register E (fst (NewBNSContract E)) (ToLower E name) addr)) 0)
    l2 = ((false, None), l3) ->
  exists tx,
    handleRegister E cfg fuel w =
    Ret (true, None)
      (mkWorld l3
         (trace w ++ [EvValidate (ToLower E name);
                      EvGetAccountNonce 0 (ClientAddr cfg);
                      EvDecodeAddress text;
                      EvResolveBNS (ToLower E name);
                      EvNewTransaction tx; EvSendTransaction tx])
         (out w ++ [PrintError "Cannot register blockchain name service: "
                               (Some (Errorf "server return false" []))])).
Proof.
  intros Hsplit Hcontract Hvalid Hdecode Hresolve Hfree Hsend.
  unfold handleRegister.
  rewrite (Split_nonempty_input _ _ _ _ Hsplit), Hsplit, Hcontract.
  cbn [List.length Nat.ltb Nat.leb]. unfold_calls.
  exec. rewrite Hvalid. exec. rewrite Hdecode. exec.
  rewrite Hresolve. exec. rewrite Hfree. exec.
  unfold NewTransaction in *. rewrite Hsend. exec.
  eexists. rewrite <- !app_assoc. reflexivity.
Qed.

(** X7.  When the node answers an unregister submission with [false] and
    no error, [handleUnregister] returns the error that the server
    returned false, and does not wait for a confirmation. *)
Theorem unregister_refused_returns_error (fuel : nat) (w : World (Ledger E))
    (failed : option error) (l2 l3 : Ledger E) :
  snd (NewBNSContract E) = None ->
  isValidBNS (ToLower E (BNSUnregister cfg)) = true ->
  ResolveBNSOwner E (ToLower E (BNSUnregister cfg))
    (snd (GetAccountNonce E 0 (ClientAddr cfg) (net w)))
  = ((clientAddr E, failed), l2) ->
  clientAddr E <> zeroAddress ->
  SendTransaction E
    (NewTransaction (fst (GetAccountNonce E 0 (ClientAddr cfg) (net w)))
       0 10000000 (BNSAddr E) 0
       (fst (Unregister E (fst (NewBNSContract E))
               (ToLower E (BNSUnregister cfg)))) 0)
    l2 = ((false, None), l3) ->
  exists tx,
    handleUnregister E cfg fuel w =
    Ret (true, Some (Errorf "server returned false" []))
      (mkWorld l3
         (trace w ++ [EvValidate (ToLower E (BNSUnregister cfg));
                      EvGetAccountNonce 0 (ClientAddr cfg);
                      EvResolveBNSOwner (ToLower E (BNSUnregister cfg));
                      EvNewTransaction tx; EvSendTransaction tx])
         (out w ++ [PrintError "Cannot unregister blockchain name: "
                               (Some (Errorf "server returned false" []))])).
Proof.
  intros Hcontract Hvalid Hresolve Hcaller Hsend.
  unfold handleUnregister.
  rewrite (valid_nonempty_input _ _ Hvalid), Hcontract. unfold_calls.
  exec. rewrite Hvalid. exec. rewrite Hresolve. exec.
  apply Address_eqb_neq in Hcaller. rewrite Hcaller, Address_eqb_refl. exec.
  unfold NewTransaction in *. rewrite Hsend. exec.
  eexists. rewrite <- !app_assoc. reflexivity.
Qed.

(** X8.  A register request that goes all the way: the name is valid, it
    is not bound to the address yet, the node takes the transaction, and
    at the first evaluation of the predicate the name resolves to the
    address.  The handler prints the registration, the notice of the
    wait and the success, returns no error, and has submitted once; the
    wait neither slept nor polled the height a second time. *)
Theorem register_confirmed_at_once (fuel : nat) (w : World (Ledger E))
    (name text : string) (rest : list string) (addr bound : Address)
    (failed : option error) (l2 l3 l5 : Ledger E) :
  GoStrings.Split (BNSRegister cfg) "=" = name :: text :: rest ->
  snd (NewBNSContract E) = None ->
  isValidBNS (ToLower E name) = true ->
  DecodeAddress E text = (addr, None) ->
  ResolveBNS E (ToLower E name)
    (snd (GetAccountNonce E 0 (ClientAddr cfg) (net w))) = ((bound, failed), l2) ->
  isNil failed && Address_eqb bound addr = false ->
  SendTransaction E
    (NewTransaction (fst (GetAccountNonce E 0 (ClientAddr cfg) (net w)))
       0 10000000 (BNSAddr E) 0
       (fst (Register E (fst (NewBNSContract E)) (ToLower E name) addr)) 0)
    l2 = ((true, None), l3) ->
  ResolveBNS E (ToLower E name) (snd (LastValid E l3)) = ((addr, None), l5) ->
  exists tx,
    handleRegister E cfg fuel w =
    Ret (true, None)
      (mkWorld l5
         (trace w ++ [EvValidate (ToLower E name);
                      EvGetAccountNonce 0 (ClientAddr cfg);
                      EvDecodeAddress text;
                      EvResolveBNS (ToLower E name);
                      EvNewTransaction tx; EvSendTransaction tx;
                      EvLastValid; EvResolveBNS (ToLower E name)])
         (out w ++ [PrintLabel "Register bns: "
                      (Sprintf "%s=%s" [FmtString (ToLower E name);
                                        FmtHexString addr]);
                    waiting; confirmed])).
Proof.
  intros Hsplit Hcontract Hvalid Hdecode Hresolve Hfree Hsend Hbound.
  unfold handleRegister.
  rewrite (Split_nonempty_input _ _ _ _ Hsplit), Hsplit, Hcontract.
  cbn [List.length Nat.ltb Nat.leb].
  unfold_calls.
  exec. rewrite Hvalid. exec. rewrite Hdecode. exec.
  rewrite Hresolve. exec. rewrite Hfree. exec.
  unfold NewTransaction in *. rewrite Hsend. exec.
  unfold wait. unfold_calls. exec.
  rewrite waitBudget_S, waitLoop_S. unfold lastValid. unfold_calls. exec.
  rewrite Hbound. exec. rewrite Address_eqb_refl. exec.
  eexists. rewrite <- !app_assoc. reflexivity.
Qed.

End SubmissionFacts.

(** ** The confirmation wait *)

Lemma resolutions_app (t1 t2 : list Event) :
  resolutions (t1 ++ t2) = resolutions t1 + resolutions t2.
Proof. unfold resolutions. now rewrite filter_app, length_app. Qed.

Section WaitFacts.

Variable E : Env.

(** X9.  A confirmation wait whose predicate only resolves names never
    submits a transaction: whatever the fuel, and whether it returns or
    not, it adds to the trace only polls of the height, resolutions and
    sleeps. *)
Theorem wait_never_submits (fuel : nat) (condition : Prog E bool)
    (w : World (Ledger E)) :
  polls E condition ->
  exists t,
    trace (worldOf (wait E fuel condition w)) = trace w ++ t /\
    forallb isPoll t = true /\
    submissions t = 0.
Proof.
  intros Hc. destruct (polls_wait E fuel condition Hc w) as [t [Ht Hp]].
  exists t. repeat split; [exact Ht | exact Hp | now apply polls_submissions].
Qed.

(** A height wait prints nothing and resolves nothing. *)
Lemma awaitHeight_quiet (fuel : nat) :
  forall (bn : N) (w : World (Ledger E)),
    out (worldOf (awaitHeight E fuel bn w)) = out w /\
    resolutions (trace (worldOf (awaitHeight E fuel bn w)))
    = resolutions (trace w).
Proof.
  induction fuel as [| fuel IH]; intros bn w; [split; reflexivity |].
  rewrite awaitHeight_S. cbv zeta.
  destruct (negb (bn =? fst (LastValid E (net w)))%N).
  - cbn [worldOf out trace]. rewrite resolutions_app. cbn. split; [reflexivity | lia].
  - match goal with
    | |- context [awaitHeight E fuel bn ?w1] =>
        destruct (IH bn w1) as [Hout Hres]; rewrite Hout, Hres
    end.
    cbn [out trace]. rewrite !resolutions_app. cbn. split; [reflexivity | lia].
Qed.

Variable ev : Event.
Variable f : Ledger E -> (Address * option error) * Ledger E.
Variable g : Address * option error -> bool.
Hypothesis Hev : isResolution ev = true.

(** The three ways the loop of a wait can go, for a predicate that is one
    resolution and a test of its answer. *)
Lemma waitLoop_verdict (fuel budget : nat) :
  forall w : World (Ledger E),
    match waitLoop E fuel (bind (call ev f) (fun c => ret (g c))) budget w with
    | Ret _ w' =>
        (out w' = out w ++ [confirmed] /\
         exists k, 1 <= k <= budget /\
                   resolutions (trace w') = resolutions (trace w) + k) \/
        (out w' = out w ++ [timedOut] /\
         resolutions (trace w') = resolutions (trace w) + budget)
    | Hang w' =>
        out w' = out w /\
        exists k, 1 <= k <= budget /\
                  resolutions (trace w') = resolutions (trace w) + k
    end.
Proof.
  induction budget as [| budget IH]; intros w.
  - cbn [waitLoop]. unfold printError, print. right.
    split; [reflexivity | cbn [trace]; lia].
  - rewrite waitLoop_S. unfold bind at 1, lastValid, call.
    unfold bind at 1. unfold bind at 1, call, ret.
    cbn [fst snd net trace out].
    destruct (g _).
    + cbn [printInfo print out trace net]. left. split; [reflexivity |].
      exists 1. split; [lia |].
      rewrite !resolutions_app. cbn. rewrite Hev. cbn. lia.
    + unfold bind at 1.
      match goal with
      | |- context [awaitHeight E fuel ?bn ?w2] =>
          destruct (awaitHeight_quiet fuel bn w2) as [Hout Hres];
          destruct (awaitHeight E fuel bn w2) as [[] w3 | w3]
      end; cbn [worldOf out trace] in Hout, Hres;
        rewrite !resolutions_app in Hres; cbn in Hres; rewrite Hev in Hres;
        cbn in Hres.
      * specialize (IH w3).
        destruct (waitLoop E fuel _ budget w3) as [[] w4 | w4].
        -- destruct IH as [[Ho [k [Hk Hr]]] | [Ho Hr]].
           ++ left. split; [now rewrite Ho, Hout |].
              exists (S k). split; [lia |]. rewrite Hr, Hres. lia.
           ++ right. split; [now rewrite Ho, Hout |]. rewrite Hr, Hres. lia.
        -- destruct IH as [Ho [k [Hk Hr]]]. split; [now rewrite Ho, Hout |].
           exists (S k). split; [lia |]. rewrite Hr, Hres. lia.
      * split; [exact Hout |]. exists 1. split; [lia |]. rewrite Hres. lia.
Qed.

(** X10.  The three ways a confirmation wait can go, for a predicate
    that is one resolution and a test of its answer, as the predicates
    of the three handlers are.  If the wait returns, it has printed its
    notice and then one verdict: either the success, after 1 to 6000
    evaluations of the predicate, or the timeout, after exactly 6000.
    If it does not return it has printed the notice only, and has
    evaluated the predicate 1 to 6000 times. *)
Theorem wait_verdict (fuel : nat) (w : World (Ledger E)) :
  match wait E fuel (bind (call ev f) (fun c => ret (g c))) w with
  | Ret _ w' =>
      (out w' = out w ++ [waiting; confirmed] /\
       exists k, 1 <= k <= waitBudget /\
                 resolutions (trace w') = resolutions (trace w) + k) \/
      (out w' = out w ++ [waiting; timedOut] /\
       resolutions (trace w') = resolutions (trace w) + waitBudget)
  | Hang w' =>
      out w' = out w ++ [waiting] /\
      exists k, 1 <= k <= waitBudget /\
                resolutions (trace w') = resolutions (trace w) + k
  end.
Proof.
  unfold wait. unfold bind at 1, printInfo, print.
  match goal with
  | |- context [waitLoop E fuel ?c waitBudget ?w1] =>
      pose proof (waitLoop_verdict fuel waitBudget w1) as H;
      destruct (waitLoop E fuel c waitBudget w1) as [[] w' | w']
  end; cbn [out trace] in H.
  - destruct H as [[Ho Hk] | [Ho Hr]]; [left | right];
      (split; [rewrite Ho, <- app_assoc; reflexivity | assumption]).
  - destruct H as [Ho Hk]. split; [exact Ho | exact Hk].
Qed.

End WaitFacts.

Example waitBudget_6000 : N.of_nat waitBudget = 6000%N.
Proof. reflexivity. Qed.

(** ** The lookup *)

Section LookupFacts.

Variable E : Env.
Variable cfg : Config.

(** X11.  A lookup always returns, validates nothing and submits
    nothing.  For an empty name it does nothing at all.  For any other
    name, valid or not, it resolves the lower-cased name; if that fails
    it prints the failure and returns the error without asking for the
    owner; only if it went well does it print the result and resolve the
    owner, and then it prints the owner or the failure, returns the
    error of that second resolution, and does no more. *)
Theorem lookup_reads_only (w : World (Ledger E)) :
  if (String.length (ToLower E (BNSLookup cfg)) =? 0)%nat
  then handleLookup E cfg w = Ret (false, None) w
  else
    match snd (fst (ResolveBNS E (ToLower E (BNSLookup cfg)) (net w))) with
    | Some err =>
        handleLookup E cfg w =
        Ret (true, Some err)
          (mkWorld (snd (ResolveBNS E (ToLower E (BNSLookup cfg)) (net w)))
             (trace w ++ [EvResolveBNS (ToLower E (BNSLookup cfg))])
             (out w ++ [PrintError "Lookup error: " (Some err)]))
    | None =>
        handleLookup E cfg w =
        Ret (true,
             snd (fst (ResolveBNSOwner E (ToLower E (BNSLookup cfg))
                         (snd (ResolveBNS E (ToLower E (BNSLookup cfg))
                                 (net w))))))
          (mkWorld
             (snd (ResolveBNSOwner E (ToLower E (BNSLookup cfg))
                     (snd (ResolveBNS E (ToLower E (BNSLookup cfg)) (net w)))))
             (trace w ++ [EvResolveBNS (ToLower E (BNSLookup cfg));
                          EvResolveBNSOwner (ToLower E (BNSLookup cfg))])
             (out w ++
              [PrintLabel "Lookup result: "
                 (Sprintf "%s=0x%s"
                    [FmtString (ToLower E (BNSLookup cfg));
                     FmtHex (fst (fst (ResolveBNS E (ToLower E (BNSLookup cfg))
                                         (net w))))]);
               match
                 snd (fst (ResolveBNSOwner E (ToLower E (BNSLookup cfg))
                             (snd (ResolveBNS E (ToLower E (BNSLookup cfg))
                                     (net w)))))
               with
               | Some err => PrintError "Couldn't lookup owner: " (Some err)
               | None =>
                   PrintLabel "Domain owner: "
                     (Sprintf "0x%s"
                        [FmtHex
                           (fst (fst (ResolveBNSOwner E
                                        (ToLower E (BNSLookup cfg))
                                        (snd (ResolveBNS E
                                                (ToLower E (BNSLookup cfg))
                                                (net w))))))])
               end]))
    end.
Proof.
  unfold handleLookup. cbv zeta.
  destruct (String.length (ToLower E (BNSLookup cfg)) =? 0)%nat; [reflexivity |].
  unfold_calls. exec.
  destruct (snd (fst (ResolveBNS E _ _))) as [err |]; [reflexivity |].
  exec.
  destruct (snd (fst (ResolveBNSOwner E _ _))) as [err |];
    exec; rewrite <- !app_assoc; reflexivity.
Qed.

(** X12.  When the owner of a name that resolves cannot be resolved, the
    lookup has already printed the address the name is bound to; it then
    prints the failure and returns its error. *)
Theorem lookup_owner_failure (w : World (Ledger E)) (bound unknown : Address)
    (err : error) (l1 l2 : Ledger E) :
  ToLower E (BNSLookup cfg) <> "" ->
  ResolveBNS E (ToLower E (BNSLookup cfg)) (net w) = ((bound, None), l1) ->
  ResolveBNSOwner E (ToLower E (BNSLookup cfg)) l1 = ((unknown, Some err), l2) ->
  handleLookup E cfg w =
  Ret (true, Some err)
    (mkWorld l2
       (trace w ++ [EvResolveBNS (ToLower E (BNSLookup cfg));
                    EvResolveBNSOwner (ToLower E (BNSLookup cfg))])
       (out w ++ [PrintLabel "Lookup result: "
                    (Sprintf "%s=0x%s" [FmtString (ToLower E (BNSLookup cfg));
                                        FmtHex bound]);
                  PrintError "Couldn't lookup owner: " (Some err)])).
Proof.
  intros Hname Hbound Howner. unfold handleLookup. cbv zeta.
  destruct (ToLower E (BNSLookup cfg)) as [| c s] eqn:Hlower; [contradiction |].
  cbn [String.length Nat.eqb]. unfold_calls. exec.
  rewrite Hbound. exec. rewrite Howner. exec.
  rewrite <- !app_assoc. reflexivity.
Qed.

End LookupFacts.

(** ** Names and inputs *)

Lemma bnsChar_lower_case (c : ascii) :
  bnsChar c -> GoStrings.isASCII c = true /\ GoStrings.lowerByte c = c.
Proof.
  unfold bnsChar, GoStrings.isASCII, GoStrings.lowerByte, GoStrings.isUpper,
    GoStrings.inRange.
  change (GoStrings.byteVal "A") with 65%N.
  change (GoStrings.byteVal "Z") with 90%N.
  intros [H | [H | ->]]; [| | split; reflexivity].
  - split; [apply N.ltb_lt; lia |].
    replace (GoStrings.byteVal c <=? 90)%N with true
      by (symmetry; apply N.leb_le; lia).
    replace (65 <=? GoStrings.byteVal c)%N with false
      by (symmetry; apply N.leb_gt; lia).
    reflexivity.
  - split; [apply N.ltb_lt; lia |].
    replace (GoStrings.byteVal c <=? 90)%N with false
      by (symmetry; apply N.leb_gt; lia).
    now rewrite andb_false_r.
Qed.

(** X13.  A valid name is in lower case already: lower-casing leaves it
    as it is, whatever the library does with other strings. *)
Theorem valid_name_is_lower_case (E : Env) (name : string) :
  isValidBNS name = true -> ToLower E name = name.
Proof.
  intros Hvalid. apply isValidBNS_iff in Hvalid. destruct Hvalid as [_ Hall].
  unfold ToLower, GoStrings.ToLower.
  assert (H : GoStrings.forallb GoStrings.isASCII name = true /\
              GoStrings.map GoStrings.lowerByte name = name).
  { unfold everyChar in Hall. induction name as [| c t IH]; [split; reflexivity |].
    destruct (bnsChar_lower_case c (Hall c (or_introl eq_refl))) as [Ha Hl].
    destruct IH as [IHa IHl]; [intros d Hd; apply Hall; now right |].
    cbn. now rewrite Ha, Hl, IHa, IHl. }
  destruct H as [Ha Hl]. now rewrite Ha.
Qed.

Lemma Split_single (s b : string) :
  GoStrings.Split s "=" = [b] -> s = b /\ separators s = 0.
Proof.
  unfold separators. revert b. induction s as [| c t IH]; intros b; cbn.
  - intros H. injection H as <-. split; reflexivity.
  - destruct (Ascii.eqb c "=").
    + destruct t; cbn; [discriminate |].
      destruct (Ascii.eqb _ "="); [discriminate |].
      destruct (GoStrings.Split t "="); discriminate.
    + destruct (GoStrings.Split t "=") as [| piece rest] eqn:Hs.
      * intros H. injection H as <-.
        destruct t; cbn in Hs; [discriminate |].
        destruct (Ascii.eqb _ "="); [discriminate |].
        destruct (GoStrings.Split t "="); discriminate.
      * intros H. injection H as <- ->.
        destruct (IH piece eq_refl) as [-> H0]. split; [reflexivity | exact H0].
Qed.

(** X14.  An input splits on [=] into exactly the two parts [name] and
    [text] if and only if it is [name], one [=] and [text], with no
    other [=] in either part: these are the inputs the transfer handler
    takes, and the name and the address it reads from them. *)
Theorem Split_name_and_address (s name text : string) :
  GoStrings.Split s "=" = [name; text] <->
  s = (name ++ String "=" text)%string /\
  separators name = 0 /\ separators text = 0.
Proof.
  split.
  - revert name. induction s as [| c t IH]; intros name; cbn; [discriminate |].
    destruct (Ascii.eqb c "=") eqn:Hc.
    + intros H. injection H as <- Ht.
      apply Ascii.eqb_eq in Hc. subst c.
      destruct (Split_single t text Ht) as [-> H0].
      repeat split. exact H0.
    + destruct (GoStrings.Split t "=") as [| piece rest] eqn:Hs; [discriminate |].
      intros H. injection H as <- ->.
      destruct (IH piece eq_refl) as [-> [Hp Ht]].
      repeat split; [| exact Ht].
      unfold separators in *. cbn. now rewrite Hc.
  - intros [-> [Hn Ht]].
    rewrite (CaseFacts.Split_name name text Hn).
    now rewrite (CaseFacts.Split_no_separator text Ht).
Qed.

(** ** The gate before the dispatch *)


(** ** Runs on the simulated nodes *)

(** The witness of X2: the owner of [hello-world] hands it over, and the
    wait that follows is out of fuel. *)
Lemma at_most_one_submission_witness :
  submissions
    (trace (worldOf (handleTransfer (Sim.env Sim.addr1 false)
                       SimNodes.transferOwn 0 Sim.world0)))
  <= submissions (trace Sim.world0) + 1 /\
  (forall w',
     handleTransfer (Sim.env Sim.addr1 false) SimNodes.transferOwn 0 Sim.world0
     = Hang w' ->
     submissions (trace w') = submissions (trace Sim.world0) + 1).
Proof.
  apply (at_most_one_submission (Sim.env Sim.addr1 false) SimNodes.transferOwn 0
           Sim.world0).
  right. right. reflexivity.
Defined.

(** The witness of X3: [new-name-1] does not resolve and is registered. *)
Lemma register_submits_unless_bound_witness :
  submissions
    (trace (worldOf (handleRegister (Sim.env Sim.addr1 false)
                       SimNodes.registerNew 0 Sim.world0)))
  = 1.
Proof.
  apply (register_submits_unless_bound (Sim.env Sim.addr1 false)
           SimNodes.registerNew 0 Sim.world0 "new-name-1" Sim.text3 []
           Sim.addr3); reflexivity.
Defined.

(** The witness of X4: the owner of [new-name-1] cannot be resolved and
    the transfer is submitted. *)
Lemma transfer_submits_unless_refused_witness :
  submissions
    (trace (worldOf (handleTransfer (Sim.env Sim.addr1 false)
                       SimNodes.transferUnknown 0 Sim.world0)))
  = 1.
Proof.
  apply (transfer_submits_unless_refused (Sim.env Sim.addr1 false)
           SimNodes.transferUnknown 0 Sim.world0 "new-name-1" Sim.text3
           Sim.addr3); reflexivity.
Defined.

(** The witness of X5: the owner of [hello-world] gives it back. *)
Lemma unregister_submits_iff_owner_witness :
  submissions
    (trace (worldOf (handleUnregister (Sim.env Sim.addr1 false)
                       SimNodes.unregisterOwn 0 Sim.world0)))
  = 1.
Proof.
  apply (unregister_submits_iff_owner (Sim.env Sim.addr1 false)
           SimNodes.unregisterOwn 0 Sim.world0); reflexivity.
Defined.

(** The witness of X6: the node refuses the registration of
    [new-name-1]. *)
Lemma register_refused_returns_no_error_witness :
  exists tx,
    handleRegister (SimNodes.refusing Sim.addr1) SimNodes.registerNew 0 Sim.world0
    = Ret (true, None)
        (mkWorld Sim.ledger0
           [EvValidate "new-name-1"; EvGetAccountNonce 0 Sim.addr1;
            EvDecodeAddress Sim.text3; EvResolveBNS "new-name-1";
            EvNewTransaction tx; EvSendTransaction tx]
           [PrintError "Cannot register blockchain name service: "
                       (Some (Errorf "server return false" []))]).
Proof.
  apply (register_refused_returns_no_error (SimNodes.refusing Sim.addr1)
           SimNodes.registerNew 0 Sim.world0 "new-name-1" Sim.text3 []
           Sim.addr3 zeroAddress (Some (CollaboratorError "not found"))
           Sim.ledger0 Sim.ledger0); reflexivity.
Defined.

(** The witness of X7: the node refuses to free [hello-world]. *)
Lemma unregister_refused_returns_error_witness :
  exists tx,
    handleUnregister (SimNodes.refusing Sim.addr1) SimNodes.unregisterOwn 0
      Sim.world0
    = Ret (true, Some (Errorf "server returned false" []))
        (mkWorld Sim.ledger0
           [EvValidate "hello-world"; EvGetAccountNonce 0 Sim.addr1;
            EvResolveBNSOwner "hello-world";
            EvNewTransaction tx; EvSendTransaction tx]
           [PrintError "Cannot unregister blockchain name: "
                       (Some (Errorf "server returned false" []))]).
Proof.
  apply (unregister_refused_returns_error (SimNodes.refusing Sim.addr1)
           SimNodes.unregisterOwn 0 Sim.world0 None Sim.ledger0 Sim.ledger0);
    try reflexivity.
  discriminate.
Defined.

(** The witness of X8: the registration of [new-name-1] is mined at
    once. *)
Lemma register_confirmed_at_once_witness :
  exists tx,
    handleRegister (SimNodes.mining Sim.addr1 SimNodes.newRecord)
      SimNodes.registerNew 0 Sim.world0
    = Ret (true, None)
        (mkWorld SimNodes.ledger1
           [EvValidate "new-name-1"; EvGetAccountNonce 0 Sim.addr1;
            EvDecodeAddress Sim.text3; EvResolveBNS "new-name-1";
            EvNewTransaction tx; EvSendTransaction tx;
            EvLastValid; EvResolveBNS "new-name-1"]
           [PrintLabel "Register bns: "
              (Sprintf "%s=%s" [FmtString "new-name-1"; FmtHexString Sim.addr3]);
            waiting; confirmed]).
Proof.
  apply (register_confirmed_at_once
           (SimNodes.mining Sim.addr1 SimNodes.newRecord)
           SimNodes.registerNew 0 Sim.world0 "new-name-1" Sim.text3 []
           Sim.addr3 zeroAddress (Some (CollaboratorError "not found"))
           Sim.ledger0 SimNodes.ledger1 SimNodes.ledger1); reflexivity.
Defined.

(** The witness of X9: the wait for a binding of [hello-world]. *)
Lemma wait_never_submits_witness :
  exists t,
    trace (worldOf (wait (Sim.env Sim.addr1 false) 3
                      (Sim.awaitsBinding Sim.addr1 false) Sim.world0))
    = trace Sim.world0 ++ t /\
    forallb isPoll t = true /\
    submissions t = 0.
Proof.
  apply (wait_never_submits (Sim.env Sim.addr1 false) 3
           (Sim.awaitsBinding Sim.addr1 false) Sim.world0).
  apply (polls_resolveBNS (Sim.env Sim.addr1 false) "hello-world").
Defined.

(** The witness of X10: the same wait, on a ledger whose height stands
    still. *)
Lemma wait_verdict_witness :
  match wait (Sim.env Sim.addr1 false) 3 (Sim.awaitsBinding Sim.addr1 false)
          Sim.world0 with
  | Ret _ w' =>
      (out w' = out Sim.world0 ++ [waiting; confirmed] /\
       exists k, 1 <= k <= waitBudget /\
                 resolutions (trace w') = resolutions (trace Sim.world0) + k) \/
      (out w' = out Sim.world0 ++ [waiting; timedOut] /\
       resolutions (trace w') = resolutions (trace Sim.world0) + waitBudget)
  | Hang w' =>
      out w' = out Sim.world0 ++ [waiting] /\
      exists k, 1 <= k <= waitBudget /\
                resolutions (trace w') = resolutions (trace Sim.world0) + k
  end.
Proof.
  apply (wait_verdict (Sim.env Sim.addr1 false) (EvResolveBNS "hello-world")
           (ResolveBNS (Sim.env Sim.addr1 false) "hello-world")
           (fun c => isNil (snd c) && Address_eqb (fst c) Sim.addr3)
           eq_refl 3 Sim.world0).
Defined.

(** The witness of X12: [Hello-World] resolves on a node that knows no
    owner. *)
Lemma lookup_owner_failure_witness :
  handleLookup (SimNodes.ownerless Sim.addr1) SimNodes.lookupKnown Sim.world0
  = Ret (true, Some (CollaboratorError "owner not found"))
      (mkWorld Sim.ledger0
         [EvResolveBNS "hello-world"; EvResolveBNSOwner "hello-world"]
         [PrintLabel "Lookup result: "
            (Sprintf "%s=0x%s" [FmtString "hello-world"; FmtHex Sim.addr2]);
          PrintError "Couldn't lookup owner: "
                     (Some (CollaboratorError "owner not found"))]).
Proof.
  apply (lookup_owner_failure (SimNodes.ownerless Sim.addr1) SimNodes.lookupKnown
           Sim.world0 Sim.addr2 zeroAddress
           (CollaboratorError "owner not found") Sim.ledger0 Sim.ledger0);
    try reflexivity.
  discriminate.
Defined.

(** The witness of X13. *)
Lemma valid_name_is_lower_case_witness :
  ToLower (Sim.env Sim.addr1 false) "hello-world" = "hello-world".
Proof.
  apply (valid_name_is_lower_case (Sim.env Sim.addr1 false) "hello-world").
  reflexivity.
Defined.


(** The runs X11 speaks of: a name that is not valid is looked up all the
    same, and an empty one is not. *)
Example lookup_of_a_short_name :
  handleLookup (Sim.env Sim.addr1 false) SimNodes.lookupUnknown Sim.world0
  = Ret (true, Some (CollaboratorError "not found"))
      (mkWorld Sim.ledger0 [EvResolveBNS "nobody"]
         [PrintError "Lookup error: " (Some (CollaboratorError "not found"))]).
Proof. reflexivity. Qed.
